(** * AWS Expert: the REST facade, the crew dispatch and the knowledge tool

A shallow embedding of [api.py] (the FastAPI service in front of the
CrewAI pipeline) and of [src/crew/tools/aws.py] (the templated AWS
knowledge tool), of the helpers of the chat page
([src/crew/ui.py]) and of the two other callers of the crew (the chat
page and [src/crew/main.py]), with the properties of the specification
and further properties of the code stated over the embedded functions.

Python values are modelled as follows.
- [str] is [string]: the UTF-8 bytes of the text.  Non-ASCII literals
  of the source (the bullet of the guidance text) are the bytes of the
  same literal here.
- a [dict] with string keys and string values is a [gmap string string];
  the one dict whose iteration order matters ([aws_services_info]) is an
  association list in insertion order.
- [Optional[str]] is [option string]; truthiness of a string is
  non-emptiness.
- code that can raise runs in a state-and-exception monad [M]; [Raise]
  stands for an instance of Python's [Exception], the class that every
  handler of the source catches, and carries the text of [str(e)]. *)

From Stdlib Require Import Ascii.
From stdpp Require Import base option list strings gmap.

(** ** A state-and-exception monad for the effectful code *)

Inductive exn : Type := Exception (msg : string).

(** [str(e)] *)
Definition str_exn (e : exn) : string := match e with Exception m => m end.

Inductive outcome (A : Type) : Type :=
| Ok (a : A)
| Raise (e : exn).
Arguments Ok {A} a.
Arguments Raise {A} e.

Definition M (S A : Type) : Type := S -> outcome A * S.

Definition ret {S A} (a : A) : M S A := fun w => (Ok a, w).

Definition raise {S A} (e : exn) : M S A := fun w => (Raise e, w).

Definition bind {S A B} (m : M S A) (k : A -> M S B) : M S B :=
  fun w => match m w with
           | (Ok a, w') => k a w'
           | (Raise e, w') => (Raise e, w')
           end.

(** [try: body  except Exception as e: handler e] *)
Definition try_except {S A} (body : M S A) (handler : exn -> M S A) : M S A :=
  fun w => match body w with
           | (Ok a, w') => (Ok a, w')
           | (Raise e, w') => handler e w'
           end.

(** An external call whose result is fixed by the environment. *)
Definition lift_outcome {S A} (o : outcome A) : M S A := fun w => (o, w).

(** The monad is registered with stdpp's [MRet] and [MBind], which gives the
    notations [x ← m; k] and [m;; k]. *)
#[global] Instance M_ret {S} : MRet (M S) := fun A a => ret a.
#[global] Instance M_bind {S} : MBind (M S) := fun A B k m => bind m k.

(** ** Strings *)

Definition nl : string := String "010"%char "".

(** [s * n] *)
Fixpoint str_mul (s : string) (n : nat) : string :=
  match n with
  | O => ""
  | S n' => s +:+ str_mul s n'
  end.

Fixpoint starts_with (p s : string) : bool :=
  match p, s with
  | EmptyString, _ => true
  | String a p', String b s' => Ascii.eqb a b && starts_with p' s'
  | String _ _, EmptyString => false
  end.

(** [needle in hay] *)
Fixpoint contains (needle hay : string) : bool :=
  starts_with needle hay ||
  match hay with
  | EmptyString => false
  | String _ hay' => contains needle hay'
  end.

(** Truthiness of a [str] and of an [Optional[str]]. *)
Definition truthy (s : string) : bool := negb (String.eqb s "").

Definition truthy_opt (o : option string) : bool :=
  match o with
  | Some s => truthy s
  | None => false
  end.

(** ** [api.py] *)

Module Api.

(** *** The CrewAI framework, as far as [api.py] touches it *)

Record Agent := { agent_name : string }.
Record Task := { task_name : string }.
Inductive Process := sequential | hierarchical.

(** What [kickoff] returns; [str(result)] is its raw text. *)
Record CrewOutput := { raw : string }.
Definition str_output (r : CrewOutput) : string := raw r.

(** A [Crew] object: all the service does with it is [kickoff(inputs=...)]. *)
Record Crew := { kickoff : gmap string string -> outcome CrewOutput }.

(** The object [AWSCrew()] returns.  Its shape is probed at run time
    ([hasattr]), so the presence of the [crew] attribute is a field. *)
Record AWSCrew := {
  has_crew : bool;
  crew : outcome Crew;
  aws_query_agent : outcome Agent;
  search_agent : outcome Agent;
  report_agent : outcome Agent;
  aws_query_task : outcome Task;
  search_task : outcome Task;
  report_task : outcome Task
}.

Record Framework := {
  new_AWSCrew : outcome AWSCrew;
  new_Crew : list Agent -> list Task -> Process -> outcome Crew
}.

(** *** Observable steps of the service *)

Inductive branch := Primary | Manual.

Inductive event :=
| EvNewAWSCrew
| EvCrew
| EvAgent (name : string)
| EvTask (name : string)
| EvNewCrew (agents : list Agent) (tasks : list Task) (p : Process)
| EvKickoff (b : branch) (inputs : gmap string string).

(** The module state: the global [crew_instance] and the steps so far. *)
Record World := {
  crew_instance : option AWSCrew;
  trace : list event
}.

Definition emit (e : event) : M World unit :=
  fun w => (Ok tt, {| crew_instance := crew_instance w; trace := trace w ++ [e] |}).

Definition set_crew_instance (h : AWSCrew) : M World unit :=
  fun w => (Ok tt, {| crew_instance := Some h; trace := trace w |}).

Definition read_crew_instance : M World (option AWSCrew) :=
  fun w => (Ok (crew_instance w), w).

(** *** Request and response models *)

Record QueryRequest := {
  query : string;
  topic : option string
}.

Record QueryResponse := {
  success : bool;
  result : string;
  error : option string
}.

(** The JSON body of a request, before validation: each field is present
    with a string value or absent. *)
Record JsonBody := {
  json_query : option string;
  json_topic : option string
}.

(** Validation against [QueryRequest]: [query: str] is required and has no
    further constraint, [topic: Optional[str] = None]. *)
Definition validate (b : JsonBody) : option QueryRequest :=
  match json_query b with
  | Some q => Some {| query := q; topic := json_topic b |}
  | None => None
  end.

Section WithFramework.
Variable fw : Framework.

Definition get_crew_instance : M World AWSCrew :=
  ci ← read_crew_instance;
  match ci with
  | None =>
      emit EvNewAWSCrew;;
      h ← lift_outcome (new_AWSCrew fw);
      set_crew_instance h;;
      ret h
  | Some h => ret h
  end.

(** The [if] branch: [crew_instance.crew().kickoff(inputs=inputs)]. *)
Definition primary_branch (h : AWSCrew) (inputs : gmap string string)
  : M World CrewOutput :=
  emit EvCrew;;
  c ← lift_outcome (crew h);
  emit (EvKickoff Primary inputs);;
  lift_outcome (kickoff c inputs).

(** The [else] branch: a crew assembled by hand from the three agents
    and the three tasks, run sequentially. *)
Definition manual_branch (h : AWSCrew) (inputs : gmap string string)
  : M World CrewOutput :=
  emit (EvAgent "aws_query_agent");;
  a1 ← lift_outcome (aws_query_agent h);
  emit (EvAgent "search_agent");;
  a2 ← lift_outcome (search_agent h);
  emit (EvAgent "report_agent");;
  a3 ← lift_outcome (report_agent h);
  emit (EvTask "aws_query_task");;
  t1 ← lift_outcome (aws_query_task h);
  emit (EvTask "search_task");;
  t2 ← lift_outcome (search_task h);
  emit (EvTask "report_task");;
  t3 ← lift_outcome (report_task h);
  emit (EvNewCrew [a1; a2; a3] [t1; t2; t3] sequential);;
  manual_crew ← lift_outcome (new_Crew fw [a1; a2; a3] [t1; t2; t3] sequential);
  emit (EvKickoff Manual inputs);;
  lift_outcome (kickoff manual_crew inputs).

(** The body of the [try] of [run_crew_sync]. *)
Definition run_crew_body (inputs : gmap string string) : M World string :=
  h ← get_crew_instance;
  result ← (if has_crew h then primary_branch h inputs
            else manual_branch h inputs);
  ret (str_output result).

Definition run_crew_sync (inputs : gmap string string) : M World string :=
  try_except (run_crew_body inputs)
    (fun e => raise (Exception ("Error running crew: " +:+ str_exn e))).

(** [GET /health] *)
Definition health_check : M World (gmap string string) :=
  ret (<["status" := "healthy"]>
       (<["message" := "AWS Expert API is running"]> ∅)).

(** [request.topic or request.query] *)
Definition topic_or_query (request : QueryRequest) : string :=
  if truthy_opt (topic request)
  then match topic request with Some t => t | None => query request end
  else query request.

(** The [inputs] dict built by [process_query]. *)
Definition make_inputs (request : QueryRequest) : gmap string string :=
  <["topic" := topic_or_query request]>
    (<["query" := query request]> ∅).

(** [POST /query].  The executor runs [run_crew_sync] to completion and
    hands its result, or its exception, back to the awaiting handler. *)
Definition process_query (request : QueryRequest) : M World QueryResponse :=
  try_except
    (let inputs := make_inputs request in
     result ← run_crew_sync inputs;
     ret {| success := true; result := result; error := None |})
    (fun e => ret {| success := false; result := ""; error := Some (str_exn e) |}).

(** The route as the server exposes it: the body is validated against
    [QueryRequest] first; an invalid body never reaches the handler. *)
Inductive http_reply :=
| Http200 (r : QueryResponse)
| Http422.

Definition post_query (b : JsonBody) : M World http_reply :=
  match validate b with
  | Some request => r ← process_query request; ret (Http200 r)
  | None => ret Http422
  end.

End WithFramework.

(** Steps that belong to the manual (fallback) branch. *)
Definition is_manual_event (e : event) : bool :=
  match e with
  | EvAgent _ | EvTask _ | EvNewCrew _ _ _ | EvKickoff Manual _ => true
  | _ => false
  end.

Definition is_kickoff (e : event) : bool :=
  match e with
  | EvKickoff _ _ => true
  | _ => false
  end.

Definition manual_attempted (t : list event) : bool := existsb is_manual_event t.

Definition kickoff_count (t : list event) : nat :=
  length (List.filter is_kickoff t).

(** How [process_query] turns the outcome of the executor call into the
    response envelope. *)
Definition respond (r : outcome string * World) : outcome QueryResponse * World :=
  match r with
  | (Ok text, w) => (Ok {| success := true; result := text; error := None |}, w)
  | (Raise e, w) =>
      (Ok {| success := false; result := ""; error := Some (str_exn e) |}, w)
  end.

(** How [run_crew_sync] turns the outcome of the branch it ran into its
    own. *)
Definition wrap (r : outcome CrewOutput * World) : outcome string * World :=
  match r with
  | (Ok out, w) => (Ok (str_output out), w)
  | (Raise e, w) => (Raise (Exception ("Error running crew: " +:+ str_exn e)), w)
  end.

(** *** Sample environments *)

Definition answering_crew : Crew :=
  {| kickoff := fun _ => Ok {| raw := "Enable default encryption." |} |}.

Definition failing_crew : Crew :=
  {| kickoff := fun _ => Raise (Exception "boom") |}.

Definition handle (probe : bool) (c : Crew) : AWSCrew := {|
  has_crew := probe;
  crew := Ok c;
  aws_query_agent := Ok {| agent_name := "aws_query_agent" |};
  search_agent := Ok {| agent_name := "search_agent" |};
  report_agent := Ok {| agent_name := "report_agent" |};
  aws_query_task := Ok {| task_name := "aws_query_task" |};
  search_task := Ok {| task_name := "search_task" |};
  report_task := Ok {| task_name := "report_task" |}
|}.

Definition framework (h : AWSCrew) (manual : Crew) : Framework := {|
  new_AWSCrew := Ok h;
  new_Crew := fun _ _ _ => Ok manual
|}.

(** A fresh process: no crew instance yet, nothing done. *)
Definition fresh : World := {| crew_instance := None; trace := [] |}.

Definition s3_inputs : gmap string string :=
  <["topic" := "How do I secure an S3 bucket?"]>
    (<["query" := "How do I secure an S3 bucket?"]> ∅).

(** *** Predicates on steps *)

(** A kickoff step, if [ev] is one, was given [inputs]. *)
Definition kickoff_given (inputs : gmap string string) (ev : event) : Prop :=
  match ev with
  | EvKickoff _ i => i = inputs
  | _ => True
  end.

Definition is_construction (e : event) : bool :=
  match e with
  | EvNewAWSCrew => true
  | _ => false
  end.

(** How often [AWSCrew()] was called. *)
Definition construction_count (t : list event) : nat :=
  length (List.filter is_construction t).

(** What a branch adds to the trace: no construction, and kickoffs only on
    the inputs it was given. *)
Definition branch_step (inputs : gmap string string) (ev : event) : Prop :=
  is_construction ev = false /\ kickoff_given inputs ev.

End Api.

(** ** [src/crew/tools/aws.py] *)

Module AwsTool.

(** [str.lower] and [str.upper] follow the Unicode tables of the
    interpreter; the tool is embedded over any such pair of functions. *)
Class StrCase := {
  str_lower : string -> string;
  str_upper : string -> string
}.

(** The case mapping restricted to ASCII letters, for running the tool on
    ASCII text. *)
Definition ascii_lower (c : ascii) : ascii :=
  let n := nat_of_ascii c in
  if (65 <=? n)%nat && (n <=? 90)%nat then ascii_of_nat (n + 32) else c.

Definition ascii_upper (c : ascii) : ascii :=
  let n := nat_of_ascii c in
  if (97 <=? n)%nat && (n <=? 122)%nat then ascii_of_nat (n - 32) else c.

Fixpoint map_string (f : ascii -> ascii) (s : string) : string :=
  match s with
  | EmptyString => EmptyString
  | String c s' => String (f c) (map_string f s')
  end.

#[global] Instance ascii_case : StrCase := {|
  str_lower := map_string ascii_lower;
  str_upper := map_string ascii_upper
|}.

(** *** Effects the module could perform *)

Inductive level := WARNING | ERROR.

Inductive effect :=
| Log (l : level) (msg : string)         (* logger.warning / logger.error *)
| HttpRequest (url : string).            (* a call through [requests] *)

Definition World := list effect.

Definition logger_warning (msg : string) : M World unit :=
  fun w => (Ok tt, (w ++ [Log WARNING msg])%list).

Definition logger_error (msg : string) : M World unit :=
  fun w => (Ok tt, (w ++ [Log ERROR msg])%list).

Definition is_http (e : effect) : bool :=
  match e with
  | HttpRequest _ => true
  | Log _ _ => false
  end.

(** [if o: return o] followed by the rest of the function. *)
Definition return_if_truthy {A} (o : option string)
    (ret_ : string -> A) (rest : A) : A :=
  match o with
  | Some s => if truthy s then ret_ s else rest
  | None => rest
  end.

Section Tool.
Context `{StrCase}.

Definition _search_aws_docs (query : string) (service : option string)
  : M World (option string) :=
  try_except
    (ret None)
    (fun e => logger_warning ("AWS docs search failed: " +:+ str_exn e);;
              ret None).

Definition _generate_search_results (query : string) (service : option string)
  : string :=
  let response := "AWS Information for: " +:+ query +:+ nl in
  let response := response +:+ str_mul "=" 50 +:+ nl +:+ nl in
  let response :=
    return_if_truthy service
      (fun s => response +:+ "Service Focus: " +:+ str_upper s +:+ nl +:+ nl)
      response in
  let response := response +:+ "Key Points:" +:+ nl in
  let response := response +:+
    "• This query relates to AWS services and best practices" +:+ nl in
  let response := response +:+
    "• For detailed information, refer to AWS Documentation" +:+ nl in
  let response := response +:+
    "• Consider security, cost optimization, and scalability" +:+ nl +:+ nl in
  let response := response +:+ "Recommended Next Steps:" +:+ nl in
  let response := response +:+
    "• Check AWS Documentation for " +:+
    return_if_truthy service (fun s => s) "relevant services" +:+ nl in
  let response := response +:+
    "• Review AWS Well-Architected Framework principles" +:+ nl in
  let response := response +:+
    "• Consider using AWS CLI or SDK for implementation" +:+ nl +:+ nl in
  let response := response +:+ "Additional Resources:" +:+ nl in
  let response := response +:+
    "• AWS Documentation: https://docs.aws.amazon.com/" +:+ nl in
  let response := response +:+
    "• AWS Well-Architected: https://aws.amazon.com/architecture/well-architected/"
    +:+ nl in
  response.

Definition aws_services_info : list (string * string) := [
  ("ec2", "Amazon EC2 provides scalable compute capacity in the cloud");
  ("s3", "Amazon S3 is object storage built to store and retrieve any amount of data");
  ("rds", "Amazon RDS makes it easy to set up, operate, and scale a relational database");
  ("lambda", "AWS Lambda lets you run code without provisioning or managing servers");
  ("vpc", "Amazon VPC lets you provision a logically isolated section of AWS Cloud");
  ("iam", "AWS IAM enables you to manage access to AWS services and resources securely");
  ("cloudformation", "AWS CloudFormation gives you an easy way to model AWS resources");
  ("cloudwatch", "Amazon CloudWatch is a monitoring service for AWS resources and applications")
].

(** [service_key in query_lower or (service and service.lower() == service_key)] *)
Definition mentioned (query_lower : string) (service : option string)
    (item : string * string) : bool :=
  contains (fst item) query_lower ||
  return_if_truthy service
    (fun s => String.eqb (str_lower s) (fst item)) false.

(** One line of the "Relevant AWS Services" block. *)
Definition service_line (item : string * string) : string :=
  "• " +:+ str_upper (fst item) +:+ ": " +:+ snd item +:+ nl.

Definition _generate_aws_guidance (query : string) (service : option string)
  : string :=
  let guidance := "AWS Guidance for: " +:+ query +:+ nl in
  let guidance := guidance +:+ str_mul "=" 50 +:+ nl +:+ nl in
  let query_lower := str_lower query in
  let mentioned_services :=
    List.filter (mentioned query_lower service) aws_services_info in
  let guidance :=
    match mentioned_services with
    | [] => guidance
    | _ :: _ =>
        let guidance := guidance +:+ "Relevant AWS Services:" +:+ nl in
        let guidance :=
          fold_left (fun g item => g +:+ service_line item)
            mentioned_services guidance in
        guidance +:+ nl
    end in
  let guidance := guidance +:+ "AWS Best Practices:" +:+ nl in
  let guidance := guidance +:+
    "• Follow the Well-Architected Framework principles" +:+ nl in
  let guidance := guidance +:+
    "• Implement proper security measures (IAM, security groups)" +:+ nl in
  let guidance := guidance +:+
    "• Use infrastructure as code (CloudFormation/CDK)" +:+ nl in
  let guidance := guidance +:+
    "• Monitor and log your resources (CloudWatch)" +:+ nl in
  let guidance := guidance +:+
    "• Optimize costs with right-sizing and reserved instances" +:+ nl +:+ nl in
  let guidance := guidance +:+
    "For specific implementation details, please refer to:" +:+ nl in
  let guidance := guidance +:+
    "• AWS Documentation: https://docs.aws.amazon.com/" +:+ nl in
  let guidance := guidance +:+
    "• AWS Architecture Center: https://aws.amazon.com/architecture/" +:+ nl in
  guidance.

(** Methods reached through [self] are parameters of their callers, so
    that a caller is embedded once, whatever the callee does. *)
Section Methods.
Variable self_generate_search_results :
    string -> option string -> M World string.
Variables self_search_aws_docs self_web_search_aws :
    string -> option string -> M World (option string).
Variable self_generate_aws_guidance :
    string -> option string -> M World string.

Definition _web_search_aws (query : string) (service : option string)
  : M World (option string) :=
  try_except
    (let search_query :=
       "AWS " +:+ return_if_truthy service (fun s => s) "" +:+ " " +:+ query
       +:+ " site:docs.aws.amazon.com OR site:aws.amazon.com" in
     r ← self_generate_search_results query service;
     ret (Some r))
    (fun e => logger_warning ("Web search failed: " +:+ str_exn e);;
              ret None).

(** The body of the [try] of [_run]. *)
Definition run_body (query : string) (service : option string)
  : M World string :=
  aws_info ← self_search_aws_docs query service;
  return_if_truthy aws_info ret
    (web_results ← self_web_search_aws query service;
     return_if_truthy web_results ret
       (self_generate_aws_guidance query service)).

Definition error_text (e : exn) : string :=
  "I encountered an error while searching for AWS information: "
  +:+ str_exn e +:+ ". Please try rephrasing your question.".

Definition _run (query : string) (service : option string)
  : M World string :=
  try_except (run_body query service)
    (fun e => logger_error ("Error in AWS Knowledge Tool: " +:+ str_exn e);;
              ret (error_text e)).
End Methods.

(** The class as written: every method is the one defined above. *)
Definition SimplifiedAWSKnowledgeTool_web_search_aws
  : string -> option string -> M World (option string) :=
  _web_search_aws (fun q s => ret (_generate_search_results q s)).

Definition SimplifiedAWSKnowledgeTool_run
  : string -> option string -> M World string :=
  _run _search_aws_docs SimplifiedAWSKnowledgeTool_web_search_aws
       (fun q s => ret (_generate_aws_guidance q s)).

End Tool.

(** *** The guidance text, piece by piece

    The three pieces that [_generate_aws_guidance] writes one after the
    other, each as one text; the properties relate them to the function. *)

Definition guidance_header (query : string) : string :=
  "AWS Guidance for: " +:+ query +:+ nl +:+ str_mul "=" 50 +:+ nl +:+ nl.

(** The block that does not depend on the input. *)
Definition best_practices : string :=
  "AWS Best Practices:" +:+ nl +:+
  "• Follow the Well-Architected Framework principles" +:+ nl +:+
  "• Implement proper security measures (IAM, security groups)" +:+ nl +:+
  "• Use infrastructure as code (CloudFormation/CDK)" +:+ nl +:+
  "• Monitor and log your resources (CloudWatch)" +:+ nl +:+
  "• Optimize costs with right-sizing and reserved instances" +:+ nl +:+ nl +:+
  "For specific implementation details, please refer to:" +:+ nl +:+
  "• AWS Documentation: https://docs.aws.amazon.com/" +:+ nl +:+
  "• AWS Architecture Center: https://aws.amazon.com/architecture/" +:+ nl.

Fixpoint concat_lines (ls : list string) : string :=
  match ls with
  | [] => ""
  | l :: ls' => l +:+ concat_lines ls'
  end.

Section Pieces.
Context `{StrCase}.

Definition relevant_services (items : list (string * string)) : string :=
  match items with
  | [] => ""
  | _ :: _ =>
      "Relevant AWS Services:" +:+ nl +:+
      concat_lines (map service_line items) +:+ nl
  end.

End Pieces.

End AwsTool.

(** ** [src/crew/ui.py]: the helpers of the chat page *)

Module Ui.
Import AwsTool.

(** *** Strings *)

(** [str.strip], [len] and the slice [s[:n]] follow the code points of the
    text; like the case mapping they are parameters of the embedding. *)
Class StrOps := {
  str_strip : string -> string;
  str_len : string -> nat;
  str_take : nat -> string -> string
}.

(** The same on ASCII text, where a code point is a byte. *)
Definition is_space (c : ascii) : bool :=
  match c with
  | " " | "009" | "010" | "011" | "012" | "013"
  | "028" | "029" | "030" | "031" => true
  | _ => false
  end%char.

Fixpoint lstrip (s : string) : string :=
  match s with
  | EmptyString => EmptyString
  | String c s' => if is_space c then lstrip s' else s
  end.

Fixpoint rstrip (s : string) : string :=
  match s with
  | EmptyString => EmptyString
  | String c s' =>
      match rstrip s' with
      | EmptyString => if is_space c then EmptyString else String c EmptyString
      | r => String c r
      end
  end.

Fixpoint take_bytes (n : nat) (s : string) : string :=
  match n, s with
  | S n', String c s' => String c (take_bytes n' s')
  | _, _ => EmptyString
  end.

#[global] Instance ascii_ops : StrOps := {|
  str_strip := fun s => rstrip (lstrip s);
  str_len := String.length;
  str_take := take_bytes
|}.

(** [s.split('\n')] *)
Fixpoint split_lines (s : string) : list string :=
  match s with
  | EmptyString => [EmptyString]
  | String c s' =>
      if Ascii.eqb c "010"%char then EmptyString :: split_lines s'
      else match split_lines s' with
           | l :: ls => String c l :: ls
           | [] => [String c EmptyString]
           end
  end.

(** ['\n'.join(ls)] *)
Fixpoint join_lines (ls : list string) : string :=
  match ls with
  | [] => EmptyString
  | [l] => l
  | l :: ls' => l +:+ nl +:+ join_lines ls'
  end.

(** *** The state of a session *)

(** [os.environ], the text inputs kept in [st.session_state], the
    [notes_history] entry of [st.session_state] (absent until first used)
    and the reading of the clock, ["%H:%M:%S"]. *)
Record State := {
  environ : gmap string string;
  session_state : gmap string string;
  notes_history : option (list (gmap string string));
  now : string
}.

(** [os.getenv(key, '')] *)
Definition getenv (key : string) : M State string :=
  fun st => (Ok (default "" (environ st !! key)), st).

(** [os.environ[key] = value] *)
Definition setenv (key value : string) : M State unit :=
  fun st => (Ok tt, {| environ := <[key := value]> (environ st);
                       session_state := session_state st;
                       notes_history := notes_history st;
                       now := now st |}).

(** [st.session_state.get(key, '')] *)
Definition session_get (key : string) : M State string :=
  fun st => (Ok (default "" (session_state st !! key)), st).

(** [d[key]] on a dict: a missing key raises [KeyError]. *)
Definition dict_get {S} (d : gmap string string) (key : string) : M S string :=
  match d !! key with
  | Some v => ret v
  | None => raise (Exception ("'" +:+ key +:+ "'"))
  end.

(** [a or b], where [b] is evaluated only when [a] is falsy. *)
Definition or_else {S} (a : string) (b : M S string) : M S string :=
  if truthy a then ret a else b.

(** *** The API keys *)

Definition load_default_api_keys : M State (gmap string string) :=
  serper ← getenv "SERPER_API_KEY";
  gemini ← getenv "GEMINI_API_KEY";
  ret (<["serper_api_key" := serper]> (<["gemini_api_key" := gemini]> ∅)).

Definition set_api_keys : M State (gmap string bool) :=
  let api_keys : gmap string bool := ∅ in
  defaults ← load_default_api_keys;
  typed ← session_get "serper_api_key";
  serper_key ← or_else typed (dict_get defaults "serper_api_key");
  typed ← session_get "gemini_api_key";
  gemini_key ← or_else typed (dict_get defaults "gemini_api_key");
  api_keys ←
    (if truthy serper_key
     then setenv "SERPER_API_KEY" serper_key;;
          ret (<["SERPER" := true]> api_keys)
     else ret api_keys);
  api_keys ←
    (if truthy gemini_key
     then setenv "GEMINI_API_KEY" gemini_key;;
          setenv "GOOGLE_API_KEY" gemini_key;;
          ret (<["Gemini" := true]> api_keys)
     else ret api_keys);
  ret api_keys.

Section Text.
Context `{StrCase} `{StrOps}.

(** *** [parse_text_output] *)

(** The [for] loop: [skip_section] and [filtered_lines] are its state. *)
Fixpoint filter_lines (lines : list string) (skip_section : bool)
    (filtered_lines : list string) : list string :=
  match lines with
  | [] => filtered_lines
  | line :: rest =>
      if contains "summary" (str_lower line)
         && (contains "##" line || contains "#" line)
      then filter_lines rest true filtered_lines
      else
        let skip_section :=
          if starts_with "##" line || starts_with "#" line
          then false else skip_section in
        if negb skip_section
        then filter_lines rest skip_section (filtered_lines ++ [line])
        else filter_lines rest skip_section filtered_lines
  end.

(** No operation of the body raises on a [str], so the [except] branch,
    which would return the text unchanged, is not reached. *)
Definition parse_text_output (response_text : string) : string :=
  let cleaned_text := str_strip response_text in
  let lines := split_lines cleaned_text in
  let filtered_lines := filter_lines lines false [] in
  str_strip (join_lines filtered_lines).

(** *** [add_note_to_history] *)

(** The test of the loop: a stripped line that is not empty, is not a
    header and has more than 20 characters. *)
Definition substantial (clean_line : string) : bool :=
  truthy clean_line && negb (starts_with "#" clean_line)
  && (20 <? str_len clean_line)%nat.

(** The loop that looks for the first substantial line that is not a
    header; [""] when there is none. *)
Fixpoint first_note (lines : list string) : string :=
  match lines with
  | [] => ""
  | line :: rest =>
      let clean_line := str_strip line in
      if truthy clean_line && negb (starts_with "#" clean_line)
         && (20 <? str_len clean_line)%nat
      then (if (100 <? str_len clean_line)%nat
            then str_take 100 clean_line +:+ "..."
            else clean_line)
      else first_note rest
  end.

(** The statements up to and including the [append]. *)
Definition append_note (content user_input : string) : M State unit :=
  fun st =>
    let history := default [] (notes_history st) in
    let lines := split_lines content in
    let note := first_note lines in
    let note :=
      if negb (truthy note)
      then "Query about: " +:+ str_take 50 user_input +:+ "..."
      else note in
    let current_time := now st in
    let entry : gmap string string :=
      <["timestamp" := current_time]>
        (<["query" := if (50 <? str_len user_input)%nat
                      then str_take 50 user_input +:+ "..."
                      else user_input]>
           (<["note" := note]> ∅)) in
    (Ok tt, {| environ := environ st;
               session_state := session_state st;
               notes_history := Some (history ++ [entry]);
               now := now st |}).

(** After the [append] the body goes on with the statements of
    [set_api_keys], word for word, and returns their [api_keys]. *)
Definition add_note_to_history (content user_input : string)
  : M State (gmap string bool) :=
  append_note content user_input;;
  set_api_keys.

End Text.

(** *** [set_api_keys] in closed form

    What the function settles on, exports and reports, written as
    expressions; the properties relate them to the function. *)

(** The key that [set_api_keys] settles on: what was typed, or else what
    the environment has. *)
Definition chosen (input_key env_key : string) (st : State) : string :=
  let typed := default "" (session_state st !! input_key) in
  if truthy typed then typed else default "" (environ st !! env_key).

Definition export_serper (st : State) (env : gmap string string)
  : gmap string string :=
  if truthy (chosen "serper_api_key" "SERPER_API_KEY" st)
  then <["SERPER_API_KEY" := chosen "serper_api_key" "SERPER_API_KEY" st]> env
  else env.

Definition export_gemini (st : State) (env : gmap string string)
  : gmap string string :=
  if truthy (chosen "gemini_api_key" "GEMINI_API_KEY" st)
  then <["GOOGLE_API_KEY" := chosen "gemini_api_key" "GEMINI_API_KEY" st]>
         (<["GEMINI_API_KEY" := chosen "gemini_api_key" "GEMINI_API_KEY" st]> env)
  else env.

Definition report_serper (st : State) (keys : gmap string bool)
  : gmap string bool :=
  if truthy (chosen "serper_api_key" "SERPER_API_KEY" st)
  then <["SERPER" := true]> keys else keys.

Definition report_gemini (st : State) (keys : gmap string bool)
  : gmap string bool :=
  if truthy (chosen "gemini_api_key" "GEMINI_API_KEY" st)
  then <["Gemini" := true]> keys else keys.

End Ui.

(** ** The other callers of the crew: [ui.py] and [main.py]

    [run_aws_crew] of the chat page and [main] of the command line run the
    same crew as the service, each with its own way of reaching it.  Both
    tell an [AttributeError] from other exceptions and look at the [crew]
    attribute itself, not at the result of calling it. *)

Module Callers.
Import Api.

Inductive step :=
| Call (e : event)               (* a call into the framework *)
| Input (prompt : string)        (* input(prompt) *)
| Printed (msg : string)         (* print(msg) *)
| Warning (msg : string).        (* st.warning(msg) *)

Definition note (s : step) : M (list step) unit :=
  fun t => (Ok tt, t ++ [s]).

(** [try: body  except AttributeError as e: handler e]: an exception of
    another class passes through. *)
Definition try_except_if {S A} (catches : exn -> bool)
    (body : M S A) (handler : exn -> M S A) : M S A :=
  fun w => match body w with
           | (Ok a, w') => (Ok a, w')
           | (Raise e, w') => if catches e then handler e w' else (Raise e, w')
           end.

Definition is_manual_step (s : step) : bool :=
  match s with
  | Call e => is_manual_event e
  | _ => false
  end.

Definition is_primary_kickoff (s : step) : bool :=
  match s with
  | Call (EvKickoff Primary _) => true
  | _ => false
  end.

Section WithFramework.
Variable fw : Framework.

(** The class of an exception is not part of its text. *)
Variable is_AttributeError : exn -> bool.

(** [callable(crew_instance.crew)]: whether the attribute is a method.  For
    a method, [crew h] is what calling it gives; for a plain attribute,
    [crew h] is what reading it gives. *)
Variable crew_callable : AWSCrew -> bool.

(** The [AttributeError] of [crew_instance.crew] when there is no such
    attribute, and of [.kickoff] on a method object. *)
Variable no_crew_attribute : exn.
Variable no_kickoff_attribute : exn.

(** [traceback.format_exc()] while [e] is being handled. *)
Variable format_exc : exn -> string.

(** [crew_instance.crew().kickoff(inputs=inputs)] *)
Definition call_then_kickoff (h : AWSCrew) (inputs : gmap string string)
  : M (list step) CrewOutput :=
  note (Call EvCrew);;
  c ← lift_outcome (crew h);
  note (Call (EvKickoff Primary inputs));;
  lift_outcome (kickoff c inputs).

(** [crew_instance.crew.kickoff(inputs=inputs)]: on a method the attribute
    [kickoff] does not exist. *)
Definition attribute_kickoff (h : AWSCrew) (inputs : gmap string string)
  : M (list step) CrewOutput :=
  if crew_callable h then raise no_kickoff_attribute
  else
    c ← lift_outcome (crew h);
    note (Call (EvKickoff Primary inputs));;
    lift_outcome (kickoff c inputs).

(** The crew assembled by hand, as both files write it. *)
Definition manual_crew_kickoff (h : AWSCrew) (inputs : gmap string string)
  : M (list step) CrewOutput :=
  note (Call (EvAgent "aws_query_agent"));;
  a1 ← lift_outcome (aws_query_agent h);
  note (Call (EvAgent "search_agent"));;
  a2 ← lift_outcome (search_agent h);
  note (Call (EvAgent "report_agent"));;
  a3 ← lift_outcome (report_agent h);
  note (Call (EvTask "aws_query_task"));;
  t1 ← lift_outcome (aws_query_task h);
  note (Call (EvTask "search_task"));;
  t2 ← lift_outcome (search_task h);
  note (Call (EvTask "report_task"));;
  t3 ← lift_outcome (report_task h);
  note (Call (EvNewCrew [a1; a2; a3] [t1; t2; t3] sequential));;
  manual_crew ← lift_outcome (new_Crew fw [a1; a2; a3] [t1; t2; t3] sequential);
  note (Call (EvKickoff Manual inputs));;
  lift_outcome (kickoff manual_crew inputs).

(** *** [ui.py] *)

(** The body of the inner [try] of [run_aws_crew]. *)
Definition standard_approach (h : AWSCrew) (inputs : gmap string string)
  : M (list step) CrewOutput :=
  if has_crew h
  then (if crew_callable h then call_then_kickoff h inputs
        else attribute_kickoff h inputs)
  else raise no_crew_attribute.

Definition failure_text (e : exn) : string :=
  "Error running AWS Crew: " +:+ str_exn e +:+ nl +:+ nl +:+
  "Traceback:" +:+ nl +:+ format_exc e.

Definition run_aws_crew (user_input : string) : M (list step) string :=
  try_except
    (let inputs : gmap string string :=
       <["topic" := user_input]> (<["query" := user_input]> ∅) in
     note (Call EvNewAWSCrew);;
     crew_instance ← lift_outcome (new_AWSCrew fw);
     result ←
       try_except_if is_AttributeError
         (standard_approach crew_instance inputs)
         (fun e =>
            note (Warning ("Standard approach failed: " +:+ str_exn e +:+
                           ". Trying manual crew creation..."));;
            manual_crew_kickoff crew_instance inputs);
     ret (str_output result))
    (fun e => ret (failure_text e)).

(** *** [main.py] *)

(** The body of the [try] of [main]. *)
Definition access_crew (h : AWSCrew) (inputs : gmap string string)
  : M (list step) CrewOutput :=
  if has_crew h then attribute_kickoff h inputs
  else raise no_crew_attribute.

(** [user_input] is what [input] returns. *)
Definition main (user_input : string) : M (list step) unit :=
  note (Input "Welcome to the AWS Crew! Please ask your doubt or question: ");;
  let inputs : gmap string string := <["topic" := user_input]> ∅ in
  note (Call EvNewAWSCrew);;
  crew_instance ← lift_outcome (new_AWSCrew fw);
  result ←
    try_except_if is_AttributeError
      (access_crew crew_instance inputs)
      (fun e =>
         note (Printed ("Error accessing crew: " +:+ str_exn e));;
         note (Printed "Trying alternative approach...");;
         manual_crew_kickoff crew_instance inputs);
  note (Printed (str_mul "=" 50));;
  note (Printed "AWS Crew Response:");;
  note (Printed (str_mul "=" 50));;
  note (Printed (str_output result)).

End WithFramework.

(** *** Sample classification *)

(** The interpreter's two errors, and a test that recognises them and
    takes every other exception for something else. *)
Definition missing_crew : exn :=
  Exception "'AWSCrew' object has no attribute 'crew'".

Definition missing_kickoff : exn :=
  Exception "'function' object has no attribute 'kickoff'".

Definition has_no_attribute (e : exn) : bool :=
  contains "has no attribute" (str_exn e).

End Callers.

(** * Properties *)

(** Unfolds the monad, so that a computation becomes a [match] on the
    outcomes of its external calls. *)
Ltac unfold_monad :=
  unfold mbind, mret, M_bind, M_ret, bind, ret, raise, try_except, lift_outcome in *.

(** ** Strings *)

Module StringFacts.

Lemma app_cons (a : ascii) (s t : string) :
  String a s +:+ t = String a (s +:+ t).
Proof. reflexivity. Qed.

Lemma app_assoc (a b c : string) : (a +:+ b) +:+ c = a +:+ (b +:+ c).
Proof.
  induction a as [|x a IH]; [reflexivity|].
  rewrite !app_cons. by rewrite IH.
Qed.

Lemma starts_with_app (p s : string) : starts_with p (p +:+ s) = true.
Proof.
  induction p as [|x p IH]; [reflexivity|].
  rewrite app_cons. simpl. by rewrite Ascii.eqb_refl.
Qed.

Lemma starts_with_app_l (p h t : string) :
  starts_with p h = true -> starts_with p (h +:+ t) = true.
Proof.
  revert h. induction p as [|x p IH]; intros h Hp; [reflexivity|].
  destruct h as [|y h]; [discriminate|].
  rewrite app_cons. simpl in *.
  apply andb_true_iff in Hp as [-> Hp]. simpl. by apply IH.
Qed.

Lemma contains_starts_with (n h : string) :
  starts_with n h = true -> contains n h = true.
Proof. intros Hs. destruct h; simpl; rewrite Hs; reflexivity. Qed.

(** What is found in [h] is found in [h] followed by anything. *)
Lemma contains_app_l (n h t : string) :
  contains n h = true -> contains n (h +:+ t) = true.
Proof.
  induction h as [|y h IH]; intros Hc.
  - simpl in Hc. rewrite orb_false_r in Hc.
    apply contains_starts_with.
    by apply (starts_with_app_l n "" t).
  - rewrite app_cons. simpl in *.
    apply orb_true_iff in Hc as [Hs|Hc].
    + apply (starts_with_app_l _ _ t) in Hs. rewrite app_cons in Hs.
      simpl in Hs. by rewrite Hs.
    + rewrite (IH Hc). apply orb_true_r.
Qed.

(** What is found in [h] is found in anything followed by [h]. *)
Lemma contains_app_r (n a h : string) :
  contains n h = true -> contains n (a +:+ h) = true.
Proof.
  intros Hc. induction a as [|x a IH]; [done|].
  rewrite app_cons. simpl. rewrite IH. apply orb_true_r.
Qed.

Lemma contains_refl_app (n t : string) : contains n (n +:+ t) = true.
Proof. apply contains_starts_with, starts_with_app. Qed.

Lemma app_nil_r (s : string) : s +:+ "" = s.
Proof. induction s as [|c s IH]; [done | by rewrite app_cons, IH]. Qed.

Lemma contains_refl (n : string) : contains n n = true.
Proof. rewrite <- (app_nil_r n) at 2. apply contains_refl_app. Qed.

Lemma truthy_app_l (a b : string) : truthy a = true -> truthy (a +:+ b) = true.
Proof. by destruct a. Qed.

End StringFacts.

(** ** The service *)

Module ApiFacts.
Import Api.

Ltac run_api :=
  unfold run_crew_sync, run_crew_body, get_crew_instance, primary_branch,
    manual_branch, read_crew_instance, set_crew_instance, emit in *;
  unfold_monad; simpl in *.

(** *** Traces *)

Lemma manual_attempted_app (t1 t2 : list event) :
  manual_attempted (t1 ++ t2) = manual_attempted t1 || manual_attempted t2.
Proof. apply existsb_app. Qed.

Lemma kickoff_count_app (t1 t2 : list event) :
  kickoff_count (t1 ++ t2) = kickoff_count t1 + kickoff_count t2.
Proof. unfold kickoff_count. by rewrite List.filter_app, length_app. Qed.

(** [get_crew_instance] runs no branch: it adds no kickoff, and no step of
    the manual branch. *)
Lemma get_crew_instance_trace fw w :
  exists evs,
    trace (snd (get_crew_instance fw w)) = trace w ++ evs /\
    manual_attempted evs = false /\ kickoff_count evs = 0.
Proof.
  run_api. destruct (crew_instance w); simpl.
  - exists []. by rewrite app_nil_r.
  - destruct (new_AWSCrew fw); simpl; by exists [EvNewAWSCrew].
Qed.

(** The primary branch adds at most one kickoff and no manual step. *)
Lemma primary_branch_trace h inputs w :
  exists evs,
    trace (snd (primary_branch h inputs w)) = trace w ++ evs /\
    manual_attempted evs = false /\ kickoff_count evs <= 1.
Proof.
  run_api. destruct (crew h) as [c|e]; simpl.
  - exists [EvCrew; EvKickoff Primary inputs].
    destruct (kickoff c inputs); simpl; rewrite <- app_assoc; auto.
  - exists [EvCrew]. auto.
Qed.

(** The manual branch starts by asking for the first agent, and adds at
    most one kickoff. *)
Lemma manual_branch_trace fw h inputs w :
  exists evs,
    trace (snd (manual_branch fw h inputs w))
      = trace w ++ EvAgent "aws_query_agent" :: evs /\
    kickoff_count evs <= 1.
Proof.
  run_api.
  repeat (match goal with
          | |- context [match ?o with Ok _ => _ | Raise _ => _ end] =>
              destruct o; simpl
          end);
    repeat rewrite <- app_assoc; simpl;
    eexists; (split; [reflexivity | vm_compute; lia]).
Qed.

(** *** Shared facts about the dispatch *)

(** [run_crew_sync] is whichever branch the probe selects, run after
    [get_crew_instance], with its outcome converted by [wrap]. *)
Lemma run_crew_sync_selected fw inputs w h w1 :
  get_crew_instance fw w = (Ok h, w1) ->
  run_crew_sync fw inputs w =
    wrap ((if has_crew h then primary_branch h inputs
           else manual_branch fw h inputs) w1).
Proof.
  intros Hget. unfold run_crew_sync, run_crew_body.
  unfold_monad. rewrite Hget.
  destruct (has_crew h).
  - by destruct (primary_branch h inputs w1) as [[out|e] w2].
  - by destruct (manual_branch fw h inputs w1) as [[out|e] w2].
Qed.

(** A failure to obtain the crew instance is reported the same way. *)
Lemma run_crew_sync_no_instance fw inputs w e w1 :
  get_crew_instance fw w = (Raise e, w1) ->
  run_crew_sync fw inputs w =
    (Raise (Exception ("Error running crew: " +:+ str_exn e)), w1).
Proof.
  intros Hget. unfold run_crew_sync, run_crew_body.
  unfold_monad. by rewrite Hget.
Qed.

Lemma wrap_world r : snd (wrap r) = snd r.
Proof. by destruct r as [[out|e] w]. Qed.

Lemma get_crew_instance_trace_eq fw w o w1 :
  get_crew_instance fw w = (o, w1) ->
  exists evs, trace w1 = trace w ++ evs /\
    manual_attempted evs = false /\ kickoff_count evs = 0.
Proof.
  intros Hget. destruct (get_crew_instance_trace fw w) as (evs & Ht & ?).
  rewrite Hget in Ht. eauto.
Qed.

(** The handler answers from [run_crew_sync] on the inputs it built. *)
Lemma process_query_respond fw request w :
  process_query fw request w =
    respond (run_crew_sync fw (make_inputs request) w).
Proof.
  unfold process_query, respond. unfold_monad.
  by destruct (run_crew_sync fw (make_inputs request) w) as [[text|e] w'].
Qed.

Lemma make_inputs_query request :
  make_inputs request !! "query" = Some (query request).
Proof. unfold make_inputs. by simplify_map_eq. Qed.

Lemma make_inputs_topic request :
  make_inputs request !! "topic" = Some (topic_or_query request).
Proof. unfold make_inputs. by simplify_map_eq. Qed.

(** *** The claims *)

(** C1, as stated, fails.  With a handle that exposes [crew] and whose
    pipeline raises "boom" on kickoff, the primary branch raises, the call
    fails with the wrapped error, and no step of the manual branch has
    been taken. *)
Lemma primary_failure_skips_manual_branch :
  primary_branch (handle true failing_crew) s3_inputs
      {| crew_instance := Some (handle true failing_crew);
         trace := [EvNewAWSCrew] |}
    = (Raise (Exception "boom"),
       {| crew_instance := Some (handle true failing_crew);
          trace := [EvNewAWSCrew; EvCrew; EvKickoff Primary s3_inputs] |}) /\
  run_crew_sync (framework (handle true failing_crew) answering_crew)
      s3_inputs fresh
    = (Raise (Exception "Error running crew: boom"),
       {| crew_instance := Some (handle true failing_crew);
          trace := [EvNewAWSCrew; EvCrew; EvKickoff Primary s3_inputs] |}) /\
  manual_attempted [EvNewAWSCrew; EvCrew; EvKickoff Primary s3_inputs] = false.
Proof. repeat split. Qed.

(** C1, amended.  The branch is chosen by the probe alone: once the crew
    instance [h] is obtained, [run_crew_sync] runs the primary branch when
    [h] exposes [crew] and the manual branch otherwise, and converts the
    outcome of that one branch (a raised [e] becomes
    "Error running crew: e").  The manual branch is attempted exactly when
    the probe fails; an exception of the primary branch does not lead to
    it. *)
Theorem run_crew_sync_branch_by_probe fw inputs w h w1 :
  get_crew_instance fw w = (Ok h, w1) ->
  run_crew_sync fw inputs w =
    wrap ((if has_crew h then primary_branch h inputs
           else manual_branch fw h inputs) w1) /\
  exists evs,
    trace (snd (run_crew_sync fw inputs w)) = trace w1 ++ evs /\
    manual_attempted evs = negb (has_crew h).
Proof.
  intros Hget. split; [by apply run_crew_sync_selected|].
  rewrite (run_crew_sync_selected _ _ _ _ _ Hget), wrap_world.
  destruct (has_crew h); simpl.
  - destruct (primary_branch_trace h inputs w1) as (evs & ? & ? & _). eauto.
  - destruct (manual_branch_trace fw h inputs w1) as (evs & ? & _). eauto.
Qed.

Lemma run_crew_sync_branch_by_probe_witness :
  run_crew_sync (framework (handle true failing_crew) answering_crew)
      s3_inputs fresh
    = wrap (primary_branch (handle true failing_crew) s3_inputs
              {| crew_instance := Some (handle true failing_crew);
                 trace := [EvNewAWSCrew] |}) /\
  exists evs,
    trace (snd (run_crew_sync
                  (framework (handle true failing_crew) answering_crew)
                  s3_inputs fresh))
      = [EvNewAWSCrew] ++ evs /\
    manual_attempted evs = false.
Proof.
  apply (run_crew_sync_branch_by_probe
           (framework (handle true failing_crew) answering_crew)
           s3_inputs fresh (handle true failing_crew)
           {| crew_instance := Some (handle true failing_crew);
              trace := [EvNewAWSCrew] |}).
  reflexivity.
Defined.

(** C2, as stated, fails.  The body [{"query": ""}] passes validation,
    the handler runs the crew on [{"topic": "", "query": ""}] and answers
    with the crew's text. *)
Lemma empty_query_reaches_crew :
  validate {| json_query := Some ""; json_topic := None |}
    = Some {| query := ""; topic := None |} /\
  post_query (framework (handle true answering_crew) answering_crew)
      {| json_query := Some ""; json_topic := None |} fresh
    = (Ok (Http200 {| success := true;
                      result := "Enable default encryption.";
                      error := None |}),
       {| crew_instance := Some (handle true answering_crew);
          trace := [EvNewAWSCrew; EvCrew;
                    EvKickoff Primary
                      (<["topic" := ""]> (<["query" := ""]> ∅))] |}).
Proof. split; reflexivity. Qed.

(** C2, amended.  A request whose [query] is the empty string is valid:
    the handler calls [run_crew_sync] on the inputs
    [{"topic": topic or "", "query": ""}] and answers 200 with the
    envelope of that call. *)
Theorem empty_query_is_dispatched fw b w :
  json_query b = Some "" ->
  exists resp w',
    respond (run_crew_sync fw
               (<["topic" := default "" (json_topic b)]>
                  (<["query" := ""]> ∅)) w) = (Ok resp, w') /\
    post_query fw b w = (Ok (Http200 resp), w').
Proof.
  intros Hq. unfold post_query, validate. rewrite Hq.
  unfold_monad. rewrite process_query_respond.
  unfold make_inputs, topic_or_query; simpl.
  assert (Htopic :
    (if truthy_opt (json_topic b)
     then match json_topic b with Some t => t | None => "" end
     else "") = default "" (json_topic b)).
  { destruct (json_topic b) as [t|]; [|done]. simpl. unfold truthy.
    destruct (String.eqb_spec t ""); by subst. }
  rewrite Htopic.
  destruct (run_crew_sync fw _ w) as [[text|e] w']; simpl; eauto.
Qed.

Lemma empty_query_is_dispatched_witness :
  exists resp w',
    respond (run_crew_sync
               (framework (handle true answering_crew) answering_crew)
               (<["topic" := ""]> (<["query" := ""]> ∅)) fresh)
      = (Ok resp, w') /\
    post_query (framework (handle true answering_crew) answering_crew)
      {| json_query := Some ""; json_topic := None |} fresh
      = (Ok (Http200 resp), w').
Proof.
  apply (empty_query_is_dispatched
           (framework (handle true answering_crew) answering_crew)
           {| json_query := Some ""; json_topic := None |} fresh).
  reflexivity.
Defined.

(** C3.  [process_query] always produces a response, and the response
    satisfies the envelope invariant: with [success] the [error] is absent,
    without it the [result] is the empty string. *)
Theorem process_query_envelope fw request w :
  exists resp w',
    process_query fw request w = (Ok resp, w') /\
    if success resp then error resp = None else result resp = "".
Proof.
  rewrite process_query_respond.
  destruct (run_crew_sync fw (make_inputs request) w) as [[text|e] w'];
    simpl; do 2 eexists; (split; [reflexivity | done]).
Qed.

(** No retry: one call of [run_crew_sync] adds at most one kickoff. *)
Lemma run_crew_sync_kickoff_once fw inputs w :
  kickoff_count (trace (snd (run_crew_sync fw inputs w)))
    <= kickoff_count (trace w) + 1.
Proof.
  destruct (get_crew_instance fw w) as [[h|e] w1] eqn:Hget;
    destruct (get_crew_instance_trace_eq _ _ _ _ Hget) as (evs & Ht & _ & Hk).
  - rewrite (run_crew_sync_selected _ _ _ _ _ Hget), wrap_world.
    destruct (has_crew h).
    + destruct (primary_branch_trace h inputs w1) as (evs' & -> & _ & ?).
      rewrite Ht, !kickoff_count_app. lia.
    + destruct (manual_branch_trace fw h inputs w1) as (evs' & -> & ?).
      rewrite Ht, !kickoff_count_app.
      change (kickoff_count (EvAgent "aws_query_agent" :: evs'))
        with (kickoff_count evs'). lia.
  - rewrite (run_crew_sync_no_instance _ _ _ _ _ Hget). simpl.
    rewrite Ht, kickoff_count_app. lia.
Qed.

(** C4, as stated, fails on the text of the prefix.  The error of the
    sample pipeline is reported as "Error running crew: boom", which does
    not start with "Error running pipeline: ". *)
Lemma wrapped_error_prefix_is_crew :
  fst (run_crew_sync (framework (handle true failing_crew) answering_crew)
         s3_inputs fresh)
    = Raise (Exception "Error running crew: boom") /\
  starts_with "Error running pipeline: " "Error running crew: boom" = false.
Proof. split; reflexivity. Qed.

(** C4, amended.  An exception [e] raised by the branch that
    [run_crew_sync] runs is re-raised as an [Exception] whose text is
    "Error running crew: " followed by [str(e)]; nothing is retried: the
    call has added at most one kickoff. *)
Theorem run_crew_sync_wraps_errors fw inputs w h w1 e w2 :
  get_crew_instance fw w = (Ok h, w1) ->
  (if has_crew h then primary_branch h inputs
   else manual_branch fw h inputs) w1 = (Raise e, w2) ->
  run_crew_sync fw inputs w
    = (Raise (Exception ("Error running crew: " +:+ str_exn e)), w2) /\
  kickoff_count (trace w2) <= kickoff_count (trace w) + 1.
Proof.
  intros Hget Hbranch.
  assert (Hrun : run_crew_sync fw inputs w
            = (Raise (Exception ("Error running crew: " +:+ str_exn e)), w2)).
  { rewrite (run_crew_sync_selected _ _ _ _ _ Hget).
    destruct (has_crew h); by rewrite Hbranch. }
  split; [done|].
  pose proof (run_crew_sync_kickoff_once fw inputs w) as Hk.
  by rewrite Hrun in Hk.
Qed.

Lemma run_crew_sync_wraps_errors_witness :
  run_crew_sync (framework (handle true failing_crew) answering_crew)
      s3_inputs fresh
    = (Raise (Exception ("Error running crew: " +:+ str_exn (Exception "boom"))),
       {| crew_instance := Some (handle true failing_crew);
          trace := [EvNewAWSCrew; EvCrew; EvKickoff Primary s3_inputs] |}) /\
  kickoff_count [EvNewAWSCrew; EvCrew; EvKickoff Primary s3_inputs]
    <= kickoff_count [] + 1.
Proof.
  apply (run_crew_sync_wraps_errors
           (framework (handle true failing_crew) answering_crew)
           s3_inputs fresh (handle true failing_crew)
           {| crew_instance := Some (handle true failing_crew);
              trace := [EvNewAWSCrew] |}
           (Exception "boom")
           {| crew_instance := Some (handle true failing_crew);
              trace := [EvNewAWSCrew; EvCrew; EvKickoff Primary s3_inputs] |});
    reflexivity.
Defined.

(** C5.  The handler calls [run_crew_sync] on a dict whose ["query"] is the
    request's query, unchanged, and whose ["topic"] is the query when the
    request has no topic (and the supplied topic when it has a non-empty
    one).  This holds for the empty query as well. *)
Theorem process_query_inputs fw request w :
  exists inputs,
    process_query fw request w = respond (run_crew_sync fw inputs w) /\
    inputs !! "query" = Some (query request) /\
    match topic request with
    | None => inputs !! "topic" = Some (query request)
    | Some t => inputs !! "topic" = Some (if truthy t then t else query request)
    end.
Proof.
  exists (make_inputs request).
  split; [apply process_query_respond|].
  split; [apply make_inputs_query|].
  rewrite make_inputs_topic. unfold topic_or_query.
  destruct (topic request) as [t|]; simpl; [by destruct (truthy t) | done].
Qed.

(** C9.  A topic that is present but falsy is discarded: the inputs
    handed to [run_crew_sync] have the query as their topic. *)
Theorem process_query_falsy_topic fw request w :
  topic request = Some "" ->
  exists inputs,
    process_query fw request w = respond (run_crew_sync fw inputs w) /\
    inputs !! "topic" = Some (query request) /\
    inputs !! "query" = Some (query request).
Proof.
  intros Ht. exists (make_inputs request).
  split; [apply process_query_respond|].
  rewrite make_inputs_topic, make_inputs_query.
  unfold topic_or_query. by rewrite Ht.
Qed.

Lemma process_query_falsy_topic_witness :
  exists inputs,
    process_query (framework (handle true answering_crew) answering_crew)
        {| query := "How do I secure an S3 bucket?"; topic := Some "" |} fresh
      = respond (run_crew_sync
                   (framework (handle true answering_crew) answering_crew)
                   inputs fresh) /\
    inputs !! "topic" = Some "How do I secure an S3 bucket?" /\
    inputs !! "query" = Some "How do I secure an S3 bucket?".
Proof.
  apply (process_query_falsy_topic
           (framework (handle true answering_crew) answering_crew)
           {| query := "How do I secure an S3 bucket?"; topic := Some "" |}
           fresh).
  reflexivity.
Defined.

(** C8.  [GET /health] answers with ["status": "healthy"] in every state
    and leaves the state as it was: the crew instance is not constructed
    (or touched), and no step is taken. *)
Theorem health_check_frame w :
  exists body,
    health_check w = (Ok body, w) /\
    body !! "status" = Some "healthy" /\
    body !! "message" = Some "AWS Expert API is running".
Proof.
  eexists. split; [reflexivity|]. split; by simplify_map_eq.
Qed.

(** *** Further properties of the service *)

Lemma construction_count_app (t1 t2 : list event) :
  construction_count (t1 ++ t2) = construction_count t1 + construction_count t2.
Proof. unfold construction_count. by rewrite List.filter_app, length_app. Qed.

(** Destructs the outcomes of the external calls of a branch, one by one. *)
Ltac each_outcome :=
  repeat (match goal with
          | |- context [match ?o with Ok _ => _ | Raise _ => _ end] =>
              destruct o eqn:?; simpl
          end).

(** X1.  The crew instance is a lazily created singleton: once
    [get_crew_instance] has returned a handle, the global holds it, and a
    later call returns the same handle without a step, whatever the
    constructor would do then. *)
Theorem get_crew_instance_reuses fw fw' w h w1 :
  get_crew_instance fw w = (Ok h, w1) ->
  crew_instance w1 = Some h /\
  get_crew_instance fw' w1 = (Ok h, w1).
Proof.
  unfold get_crew_instance, read_crew_instance, set_crew_instance, emit.
  unfold_monad. simpl.
  destruct (crew_instance w) as [h0|] eqn:Hci.
  - intros [= -> <-]. by rewrite Hci.
  - destruct (new_AWSCrew fw) as [h0|e]; simpl; [|discriminate].
    by intros [= -> <-].
Qed.

Lemma get_crew_instance_reuses_witness :
  crew_instance {| crew_instance := Some (handle true answering_crew);
                   trace := [EvNewAWSCrew] |}
    = Some (handle true answering_crew) /\
  get_crew_instance (framework (handle false failing_crew) failing_crew)
      {| crew_instance := Some (handle true answering_crew);
         trace := [EvNewAWSCrew] |}
    = (Ok (handle true answering_crew),
       {| crew_instance := Some (handle true answering_crew);
          trace := [EvNewAWSCrew] |}).
Proof.
  apply (get_crew_instance_reuses
           (framework (handle true answering_crew) answering_crew)
           (framework (handle false failing_crew) failing_crew)
           fresh).
  reflexivity.
Defined.

(** X2.  A constructor that raises leaves the global unset: the failure is
    not remembered, and the next call runs the constructor again and
    returns what it then yields. *)
Theorem get_crew_instance_failure_not_cached fw fw' w e h :
  crew_instance w = None ->
  new_AWSCrew fw = Raise e ->
  new_AWSCrew fw' = Ok h ->
  exists w1,
    get_crew_instance fw w = (Raise e, w1) /\
    crew_instance w1 = None /\
    trace w1 = trace w ++ [EvNewAWSCrew] /\
    get_crew_instance fw' w1
      = (Ok h, {| crew_instance := Some h;
                  trace := trace w ++ [EvNewAWSCrew; EvNewAWSCrew] |}).
Proof.
  intros Hci Hnew Hnew'.
  exists {| crew_instance := None; trace := trace w ++ [EvNewAWSCrew] |}.
  unfold get_crew_instance, read_crew_instance, set_crew_instance, emit.
  unfold_monad. simpl. rewrite Hci, Hnew, Hnew'. simpl.
  rewrite Hci, <- app_assoc. done.
Qed.

Lemma get_crew_instance_failure_not_cached_witness :
  exists w1,
    get_crew_instance
      {| new_AWSCrew := Raise (Exception "GEMINI_API_KEY is not set");
         new_Crew := fun _ _ _ => Ok answering_crew |} fresh
      = (Raise (Exception "GEMINI_API_KEY is not set"), w1) /\
    crew_instance w1 = None /\
    trace w1 = [] ++ [EvNewAWSCrew] /\
    get_crew_instance (framework (handle true answering_crew) answering_crew) w1
      = (Ok (handle true answering_crew),
         {| crew_instance := Some (handle true answering_crew);
            trace := [] ++ [EvNewAWSCrew; EvNewAWSCrew] |}).
Proof.
  apply (get_crew_instance_failure_not_cached
           {| new_AWSCrew := Raise (Exception "GEMINI_API_KEY is not set");
              new_Crew := fun _ _ _ => Ok answering_crew |}
           (framework (handle true answering_crew) answering_crew)
           fresh (Exception "GEMINI_API_KEY is not set")
           (handle true answering_crew)); reflexivity.
Defined.

(** Neither branch touches the global. *)
Lemma primary_branch_instance h inputs w :
  crew_instance (snd (primary_branch h inputs w)) = crew_instance w.
Proof. run_api. by each_outcome. Qed.

Lemma manual_branch_instance fw h inputs w :
  crew_instance (snd (manual_branch fw h inputs w)) = crew_instance w.
Proof. run_api. by each_outcome. Qed.

Lemma respond_world r : snd (respond r) = snd r.
Proof. by destruct r as [[text|e] w]. Qed.

Lemma primary_branch_steps h inputs w :
  exists evs,
    trace (snd (primary_branch h inputs w)) = trace w ++ evs /\
    Forall (branch_step inputs) evs.
Proof.
  run_api. each_outcome; repeat rewrite <- app_assoc; simpl;
    eexists; (split; [reflexivity | by repeat constructor]).
Qed.

Lemma manual_branch_steps fw h inputs w :
  exists evs,
    trace (snd (manual_branch fw h inputs w)) = trace w ++ evs /\
    Forall (branch_step inputs) evs.
Proof.
  run_api. each_outcome; repeat rewrite <- app_assoc; simpl;
    eexists; (split; [reflexivity | by repeat constructor]).
Qed.

Lemma branch_steps_no_construction inputs evs :
  Forall (branch_step inputs) evs -> construction_count evs = 0.
Proof.
  induction 1 as [|ev evs [Hc _] _ IH]; [done|].
  unfold construction_count in *. simpl. by rewrite Hc.
Qed.

(** With the instance in place, [run_crew_sync] is the selected branch. *)
Lemma get_crew_instance_present fw w h :
  crew_instance w = Some h -> get_crew_instance fw w = (Ok h, w).
Proof.
  intros Hci. unfold get_crew_instance, read_crew_instance.
  unfold_monad. by rewrite Hci.
Qed.

(** X3.  Once the crew instance exists, requests neither replace it nor
    construct another: after [POST /query] the global holds the same
    handle and the number of [AWSCrew()] calls is what it was. *)
Theorem post_query_keeps_instance fw b w h :
  crew_instance w = Some h ->
  crew_instance (snd (post_query fw b w)) = Some h /\
  construction_count (trace (snd (post_query fw b w)))
    = construction_count (trace w).
Proof.
  intros Hci. unfold post_query.
  destruct (validate b) as [request|]; [|done].
  unfold_monad.
  destruct (process_query fw request w) as [[resp|e] w'] eqn:Hp; simpl.
  all: assert (Hw : w' = snd (process_query fw request w)) by (by rewrite Hp).
  all: rewrite process_query_respond, respond_world in Hw.
  all: rewrite (run_crew_sync_selected _ _ _ _ _
                  (get_crew_instance_present fw w h Hci)), wrap_world in Hw.
  all: subst w'; destruct (has_crew h).
  all: try (rewrite primary_branch_instance;
            destruct (primary_branch_steps h (make_inputs request) w)
              as (evs & -> & Hs)).
  all: try (rewrite manual_branch_instance;
            destruct (manual_branch_steps fw h (make_inputs request) w)
              as (evs & -> & Hs)).
  all: rewrite construction_count_app,
         (branch_steps_no_construction _ _ Hs); split; [done | lia].
Qed.

Lemma post_query_keeps_instance_witness :
  crew_instance
    (snd (post_query (framework (handle false failing_crew) failing_crew)
            {| json_query := Some "What is a VPC?"; json_topic := None |}
            {| crew_instance := Some (handle true answering_crew);
               trace := [EvNewAWSCrew] |}))
    = Some (handle true answering_crew) /\
  construction_count
    (trace
       (snd (post_query (framework (handle false failing_crew) failing_crew)
               {| json_query := Some "What is a VPC?"; json_topic := None |}
               {| crew_instance := Some (handle true answering_crew);
                  trace := [EvNewAWSCrew] |})))
    = construction_count [EvNewAWSCrew].
Proof.
  apply (post_query_keeps_instance
           (framework (handle false failing_crew) failing_crew)
           {| json_query := Some "What is a VPC?"; json_topic := None |}
           {| crew_instance := Some (handle true answering_crew);
              trace := [EvNewAWSCrew] |}
           (handle true answering_crew)).
  reflexivity.
Defined.

(** X4.  Whatever goes wrong inside [run_crew_sync] reaches the client as a
    failure envelope whose [error] is the wrapped message: an exception [e]
    of the body gives [success = false], [result = ""] and
    [error = "Error running crew: " + str(e)]. *)
Theorem process_query_reports_failure fw request w e w' :
  run_crew_body fw (make_inputs request) w = (Raise e, w') ->
  process_query fw request w
    = (Ok {| success := false; result := "";
             error := Some ("Error running crew: " +:+ str_exn e) |}, w').
Proof.
  intros Hbody. rewrite process_query_respond.
  unfold run_crew_sync, try_except. by rewrite Hbody.
Qed.

Lemma process_query_reports_failure_witness :
  process_query (framework (handle true failing_crew) answering_crew)
      {| query := "How do I secure an S3 bucket?"; topic := None |} fresh
    = (Ok {| success := false; result := "";
             error := Some ("Error running crew: " +:+ str_exn (Exception "boom")) |},
       {| crew_instance := Some (handle true failing_crew);
          trace := [EvNewAWSCrew; EvCrew; EvKickoff Primary s3_inputs] |}).
Proof.
  apply (process_query_reports_failure
           (framework (handle true failing_crew) answering_crew)
           {| query := "How do I secure an S3 bucket?"; topic := None |}
           fresh (Exception "boom")).
  reflexivity.
Defined.

(** X5.  With a healthy pipeline behind the [crew] attribute, the request
    is answered from one kickoff on the request's inputs: the response is a
    success whose [result] is the text of the pipeline's output, and the
    trace gains the call of [crew()] and that kickoff, nothing else. *)
Theorem process_query_healthy fw request w h w1 c out :
  get_crew_instance fw w = (Ok h, w1) ->
  has_crew h = true ->
  crew h = Ok c ->
  kickoff c (make_inputs request) = Ok out ->
  process_query fw request w
    = (Ok {| success := true; result := raw out; error := None |},
       {| crew_instance := crew_instance w1;
          trace := trace w1 ++ [EvCrew; EvKickoff Primary (make_inputs request)] |}).
Proof.
  intros Hget Hprobe Hcrew Hkick.
  rewrite process_query_respond, (run_crew_sync_selected _ _ _ _ _ Hget), Hprobe.
  unfold primary_branch, emit. unfold_monad. simpl.
  rewrite Hcrew. simpl. rewrite Hkick. simpl.
  by rewrite <- app_assoc.
Qed.

Lemma process_query_healthy_witness :
  process_query (framework (handle true answering_crew) answering_crew)
      {| query := "How do I secure an S3 bucket?"; topic := None |} fresh
    = (Ok {| success := true; result := raw {| raw := "Enable default encryption." |};
             error := None |},
       {| crew_instance := Some (handle true answering_crew);
          trace := [EvNewAWSCrew] ++ [EvCrew; EvKickoff Primary s3_inputs] |}).
Proof.
  apply (process_query_healthy
           (framework (handle true answering_crew) answering_crew)
           {| query := "How do I secure an S3 bucket?"; topic := None |}
           fresh (handle true answering_crew)
           {| crew_instance := Some (handle true answering_crew);
              trace := [EvNewAWSCrew] |}
           answering_crew {| raw := "Enable default encryption." |});
    reflexivity.
Defined.

(** X6.  Whichever branch runs, a kickoff that [POST /query] causes is on
    the inputs built from that request: every step the handler adds to the
    trace that is a kickoff carries [make_inputs request]. *)
Theorem process_query_kickoff_inputs fw request w :
  exists evs,
    trace (snd (process_query fw request w)) = trace w ++ evs /\
    Forall (kickoff_given (make_inputs request)) evs.
Proof.
  rewrite process_query_respond, respond_world.
  destruct (get_crew_instance fw w) as [[h|e] w1] eqn:Hget.
  - rewrite (run_crew_sync_selected _ _ _ _ _ Hget), wrap_world.
    destruct (get_crew_instance_trace_eq _ _ _ _ Hget) as (evs0 & Ht & _ & Hk).
    assert (Hevs0 : Forall (kickoff_given (make_inputs request)) evs0).
    { clear -Hk. induction evs0 as [|ev evs0 IH]; [done|].
      unfold kickoff_count in *. simpl in Hk.
      destruct ev; simpl in Hk; try discriminate; constructor; auto; done. }
    destruct (has_crew h).
    + destruct (primary_branch_steps h (make_inputs request) w1)
        as (evs & -> & Hs).
      exists (evs0 ++ evs). rewrite Ht, <- app_assoc. split; [done|].
      apply Forall_app. split; [done|].
      eapply Forall_impl; [apply Hs | by intros ev [_ ?]].
    + destruct (manual_branch_steps fw h (make_inputs request) w1)
        as (evs & -> & Hs).
      exists (evs0 ++ evs). rewrite Ht, <- app_assoc. split; [done|].
      apply Forall_app. split; [done|].
      eapply Forall_impl; [apply Hs | by intros ev [_ ?]].
  - rewrite (run_crew_sync_no_instance _ _ _ _ _ Hget). simpl.
    destruct (get_crew_instance_trace_eq _ _ _ _ Hget) as (evs0 & Ht & _ & Hk).
    exists evs0. split; [done|].
    clear -Hk. induction evs0 as [|ev evs0 IH]; [done|].
    unfold kickoff_count in *. simpl in Hk.
    destruct ev; simpl in Hk; try discriminate; constructor; auto; done.
Qed.

(** X7.  The manual branch never kicks off a partly assembled crew: if it
    adds a kickoff at all, then all three agent methods and all three task
    methods returned, [Crew(...)] was given exactly those agents and tasks,
    in that order and with the sequential process, and the outcome of the
    branch is the outcome of that crew's kickoff. *)
Theorem manual_branch_kickoff_needs_all fw h inputs w :
  kickoff_count (trace (snd (manual_branch fw h inputs w)))
    <> kickoff_count (trace w) ->
  exists a1 a2 a3 t1 t2 t3 c,
    aws_query_agent h = Ok a1 /\ search_agent h = Ok a2 /\
    report_agent h = Ok a3 /\
    aws_query_task h = Ok t1 /\ search_task h = Ok t2 /\
    report_task h = Ok t3 /\
    new_Crew fw [a1; a2; a3] [t1; t2; t3] sequential = Ok c /\
    fst (manual_branch fw h inputs w) = kickoff c inputs.
Proof.
  unfold manual_branch, emit. unfold_monad. simpl.
  destruct (aws_query_agent h) as [a1|]; simpl.
  2: { repeat rewrite <- app_assoc; rewrite kickoff_count_app;
       unfold kickoff_count at 2; simpl; lia. }
  destruct (search_agent h) as [a2|]; simpl.
  2: { repeat rewrite <- app_assoc; rewrite kickoff_count_app;
       unfold kickoff_count at 2; simpl; lia. }
  destruct (report_agent h) as [a3|]; simpl.
  2: { repeat rewrite <- app_assoc; rewrite kickoff_count_app;
       unfold kickoff_count at 2; simpl; lia. }
  destruct (aws_query_task h) as [t1|]; simpl.
  2: { repeat rewrite <- app_assoc; rewrite kickoff_count_app;
       unfold kickoff_count at 2; simpl; lia. }
  destruct (search_task h) as [t2|]; simpl.
  2: { repeat rewrite <- app_assoc; rewrite kickoff_count_app;
       unfold kickoff_count at 2; simpl; lia. }
  destruct (report_task h) as [t3|]; simpl.
  2: { repeat rewrite <- app_assoc; rewrite kickoff_count_app;
       unfold kickoff_count at 2; simpl; lia. }
  destruct (new_Crew fw [a1; a2; a3] [t1; t2; t3] sequential) as [c|] eqn:Hc;
    simpl.
  2: { repeat rewrite <- app_assoc; rewrite kickoff_count_app;
       unfold kickoff_count at 2; simpl; lia. }
  intros _. exists a1, a2, a3, t1, t2, t3, c.
  repeat (split; [done|]).
  by destruct (kickoff c inputs).
Qed.

Lemma manual_branch_kickoff_needs_all_witness :
  exists a1 a2 a3 t1 t2 t3 c,
    aws_query_agent (handle false failing_crew) = Ok a1 /\
    search_agent (handle false failing_crew) = Ok a2 /\
    report_agent (handle false failing_crew) = Ok a3 /\
    aws_query_task (handle false failing_crew) = Ok t1 /\
    search_task (handle false failing_crew) = Ok t2 /\
    report_task (handle false failing_crew) = Ok t3 /\
    new_Crew (framework (handle false failing_crew) answering_crew)
      [a1; a2; a3] [t1; t2; t3] sequential = Ok c /\
    fst (manual_branch (framework (handle false failing_crew) answering_crew)
           (handle false failing_crew) s3_inputs fresh)
      = kickoff c s3_inputs.
Proof.
  apply (manual_branch_kickoff_needs_all
           (framework (handle false failing_crew) answering_crew)
           (handle false failing_crew) s3_inputs fresh).
  vm_compute. discriminate.
Defined.

End ApiFacts.

(** ** The knowledge tool *)

Module AwsToolFacts.
Import AwsTool StringFacts.

Section Facts.
Context `{StrCase}.

(** The text of [_generate_search_results] is never empty. *)
Lemma generate_search_results_truthy query service :
  truthy (_generate_search_results query service) = true.
Proof.
  unfold _generate_search_results. cbv zeta.
  do 11 apply truthy_app_l.
  destruct service as [s|]; simpl; [destruct (truthy s)|];
    repeat apply truthy_app_l; reflexivity.
Qed.

(** The web-search method of the tool always succeeds with that text, and
    does nothing else. *)
Lemma tool_web_search_aws_eq query service w :
  SimplifiedAWSKnowledgeTool_web_search_aws query service w
    = (Ok (Some (_generate_search_results query service)), w).
Proof. reflexivity. Qed.

(** So does [_run]: the first method yields [None], the second a
    non-empty text, which is returned. *)
Lemma tool_run_eq query service w :
  SimplifiedAWSKnowledgeTool_run query service w
    = (Ok (_generate_search_results query service), w).
Proof.
  unfold SimplifiedAWSKnowledgeTool_run, _run, run_body, try_except, mbind, M_bind, bind.
  change (_search_aws_docs query service w) with (@Ok (option string) None, w).
  cbv beta iota delta [return_if_truthy].
  rewrite tool_web_search_aws_eq.
  cbv beta iota. by rewrite generate_search_results_truthy.
Qed.

(** The loop over [mentioned_services] only appends. *)
Lemma fold_service_lines_keeps x items guidance :
  contains x guidance = true ->
  contains x (fold_left (fun g item => g +:+ service_line item)
                items guidance) = true.
Proof.
  revert guidance. induction items as [|it items IH]; intros g Hg; [done|].
  simpl. apply IH. by apply contains_app_l.
Qed.

Lemma fold_service_lines_has x item items guidance :
  In item items ->
  contains x (service_line item) = true ->
  contains x (fold_left (fun g it => g +:+ service_line it)
                items guidance) = true.
Proof.
  revert guidance. induction items as [|it items IH]; intros g Hin Hx.
  - destruct Hin.
  - simpl. destruct Hin as [->|Hin].
    + apply fold_service_lines_keeps. by apply contains_app_r.
    + by apply IH.
Qed.

Lemma service_line_has_description item :
  contains (snd item) (service_line item) = true.
Proof.
  unfold service_line. do 3 apply contains_app_r. apply contains_refl_app.
Qed.

(** Whatever is in the "Relevant AWS Services" block is in the guidance. *)
Lemma guidance_has_service_line query service item :
  In item aws_services_info ->
  mentioned (str_lower query) service item = true ->
  contains (service_line item) (_generate_aws_guidance query service) = true.
Proof.
  intros Hin Hm. unfold _generate_aws_guidance. cbv zeta.
  do 9 apply contains_app_l.
  assert (Hf : In item (List.filter (mentioned (str_lower query) service)
                          aws_services_info))
    by (apply filter_In; auto).
  destruct (List.filter _ aws_services_info) as [|it items] eqn:Hl;
    [destruct Hf|].
  apply contains_app_l.
  apply fold_service_lines_has with (item := item); [done|].
  apply contains_refl.
Qed.
Lemma guidance_has_description query service item :
  In item aws_services_info ->
  mentioned (str_lower query) service item = true ->
  contains (snd item) (_generate_aws_guidance query service) = true.
Proof.
  intros Hin Hm. unfold _generate_aws_guidance. cbv zeta.
  do 9 apply contains_app_l.
  assert (Hf : In item (List.filter (mentioned (str_lower query) service)
                          aws_services_info))
    by (apply filter_In; auto).
  destruct (List.filter _ aws_services_info) as [|it items] eqn:Hl;
    [destruct Hf|].
  apply contains_app_l.
  apply fold_service_lines_has with (item := item); [done|].
  apply service_line_has_description.
Qed.

(** *** The claims *)

(** C6.  Two runs of the tool on the same [(query, service)], in any two
    states, return the same text, and each leaves its state as it was:
    nothing is logged and no HTTP request is made. *)
Theorem tool_run_pure query service w1 w2 :
  exists text,
    SimplifiedAWSKnowledgeTool_run query service w1 = (Ok text, w1) /\
    SimplifiedAWSKnowledgeTool_run query service w2 = (Ok text, w2).
Proof.
  exists (_generate_search_results query service).
  by rewrite !tool_run_eq.
Qed.

(** C7, amended.  The static mapping is read by [_generate_aws_guidance]:
    for a known service whose key occurs in the lower-cased query, or
    equals the lower-cased [service] argument, the guidance text contains
    the line of that service and with it the service's description.
    [_run] does not get that far: it returns the text of
    [_generate_search_results], in which the mapping plays no part. *)
Theorem guidance_includes_description query service key description w :
  In (key, description) aws_services_info ->
  mentioned (str_lower query) service (key, description) = true ->
  contains (service_line (key, description))
    (_generate_aws_guidance query service) = true /\
  contains description (_generate_aws_guidance query service) = true /\
  SimplifiedAWSKnowledgeTool_run query service w
    = (Ok (_generate_search_results query service), w).
Proof.
  intros Hin Hm. split; [by apply guidance_has_service_line|].
  split; [|apply tool_run_eq].
  by apply (guidance_has_description query service (key, description)).
Qed.
End Facts.

(** C7, as stated, fails.  The query mentions S3 and the [service] argument
    names it, yet the text that [_run] returns does not contain the
    description of S3. *)
Lemma run_omits_service_description :
  In ("s3", "Amazon S3 is object storage built to store and retrieve any amount of data")
    aws_services_info /\
  contains "s3" (str_lower "How do I secure an S3 bucket?") = true /\
  exists text,
    SimplifiedAWSKnowledgeTool_run "How do I secure an S3 bucket?" (Some "s3") [] = (Ok text, []) /\
    contains
      "Amazon S3 is object storage built to store and retrieve any amount of data"
      text = false.
Proof.
  split; [right; left; reflexivity|].
  split; [reflexivity|].
  eexists. split; [reflexivity|]. vm_compute. reflexivity.
Qed.

Lemma guidance_includes_description_witness :
  contains
    (service_line
       ("s3", "Amazon S3 is object storage built to store and retrieve any amount of data"))
    (_generate_aws_guidance "How do I secure an S3 bucket?" None) = true /\
  contains
    "Amazon S3 is object storage built to store and retrieve any amount of data"
    (_generate_aws_guidance "How do I secure an S3 bucket?" None) = true /\
  SimplifiedAWSKnowledgeTool_run "How do I secure an S3 bucket?" None []
    = (Ok (_generate_search_results "How do I secure an S3 bucket?" None), []).
Proof.
  apply (guidance_includes_description (H := ascii_case)
           "How do I secure an S3 bucket?" None "s3"
           "Amazon S3 is object storage built to store and retrieve any amount of data"
           []).
  - right; left; reflexivity.
  - reflexivity.
Defined.

(** C10.  Whatever the methods it calls do, [_run] returns a text and
    raises nothing.  When its body completes, the text is the body's; when
    the body raises [e], the text is the apology built from [str(e)], which
    begins "I encountered an error while searching for AWS information:". *)
Theorem run_never_raises docs web guidance query service w :
  exists text w',
    _run docs web guidance query service w = (Ok text, w') /\
    match fst (run_body docs web guidance query service w) with
    | Ok t => text = t
    | Raise e =>
        text = error_text e /\
        starts_with
          "I encountered an error while searching for AWS information:"
          text = true
    end.
Proof.
  unfold _run, try_except.
  destruct (run_body docs web guidance query service w) as [[t|e] w1].
  - by exists t, w1.
  - exists (error_text e), (w1 ++ [Log ERROR ("Error in AWS Knowledge Tool: " +:+ str_exn e)]).
    split; [reflexivity|]. split; [reflexivity|].
    unfold error_text.
    change ("I encountered an error while searching for AWS information: "
            +:+ str_exn e +:+ ". Please try rephrasing your question.")
      with ("I encountered an error while searching for AWS information:"
            +:+ " " +:+ str_exn e +:+ ". Please try rephrasing your question.").
    apply starts_with_app.
Qed.

(** The apology on a concrete failure: a tool whose last method raises. *)
Example run_apologises :
  _run _search_aws_docs (fun _ _ => ret None)
       (fun _ _ => raise (Exception "no guidance")) "vpc peering" None []
  = (Ok "I encountered an error while searching for AWS information: no guidance. Please try rephrasing your question.",
     [Log ERROR "Error in AWS Knowledge Tool: no guidance"]).
Proof. reflexivity. Qed.

(** *** Further properties of the tool *)

Section MoreFacts.
Context `{StrCase}.

Lemma fold_service_lines_concat items guidance :
  fold_left (fun g item => g +:+ service_line item) items guidance
    = guidance +:+ concat_lines (map service_line items).
Proof.
  revert guidance. induction items as [|it items IH]; intros g; simpl.
  - by rewrite app_nil_r.
  - by rewrite IH, app_assoc.
Qed.

(** X8.  The guidance text is three pieces in a row: the header with the
    query, the block of the mentioned services (one line per service, in
    the order of the mapping, and no block at all when none is mentioned),
    and a closing text that is the same for every input. *)
Theorem generate_aws_guidance_pieces query service :
  _generate_aws_guidance query service
    = guidance_header query +:+
      relevant_services
        (List.filter (mentioned (str_lower query) service) aws_services_info) +:+
      best_practices.
Proof.
  unfold _generate_aws_guidance, guidance_header, best_practices. cbv zeta.
  destruct (List.filter _ aws_services_info) as [|it items]; simpl relevant_services.
  - change ("" +:+ ?x) with x. by rewrite !app_assoc.
  - rewrite fold_service_lines_concat. simpl. by rewrite !app_assoc.
Qed.
(** X9.  An empty [service] is no [service]: with [Some ""] every text of
    the tool is the text it gives with [None]. *)
Theorem empty_service_is_none query w :
  _generate_search_results query (Some "") = _generate_search_results query None /\
  _generate_aws_guidance query (Some "") = _generate_aws_guidance query None /\
  SimplifiedAWSKnowledgeTool_run query (Some "") w
    = SimplifiedAWSKnowledgeTool_run query None w.
Proof.
  split; [reflexivity|]. split; [reflexivity|].
  by rewrite !tool_run_eq.
Qed.

(** X10.  The search-results text opens with the query, and a non-empty
    [service] is echoed twice: upper-cased on the "Service Focus" line and
    as given on the "Check AWS Documentation for" line. *)
Theorem generate_search_results_echo query s :
  truthy s = true ->
  starts_with ("AWS Information for: " +:+ query +:+ nl)
    (_generate_search_results query (Some s)) = true /\
  contains ("Service Focus: " +:+ str_upper s +:+ nl +:+ nl)
    (_generate_search_results query (Some s)) = true /\
  contains ("• Check AWS Documentation for " +:+ s +:+ nl)
    (_generate_search_results query (Some s)) = true.
Proof.
  intros Hs. unfold _generate_search_results. cbv zeta.
  unfold return_if_truthy. rewrite Hs.
  split; [|split].
  - do 12 apply starts_with_app_l. apply starts_with_app.
  - do 11 apply contains_app_l. apply contains_app_r, contains_refl.
  - do 5 apply contains_app_l. apply contains_app_r, contains_refl.
Qed.

(** X11.  When the search behind [_web_search_aws] raises, the method logs
    a warning and yields [None], and [_run] goes on to its last method: the
    caller gets the guidance text, not an error. *)
Theorem run_falls_back_to_guidance
    (gen : string -> option string -> M World string) query service w e w1 :
  gen query service w = (Raise e, w1) ->
  _run _search_aws_docs (_web_search_aws gen)
       (fun q s => ret (_generate_aws_guidance q s)) query service w
    = (Ok (_generate_aws_guidance query service),
       w1 ++ [Log WARNING ("Web search failed: " +:+ str_exn e)]).
Proof.
  intros Hgen.
  unfold _run, run_body, _web_search_aws, try_except, mbind, M_bind, bind.
  change (_search_aws_docs query service w) with (@Ok (option string) None, w).
  cbv beta iota delta [return_if_truthy]. by rewrite Hgen.
Qed.
End MoreFacts.

Lemma generate_search_results_echo_witness :
  starts_with ("AWS Information for: " +:+ "bucket policy" +:+ nl)
    (_generate_search_results "bucket policy" (Some "s3")) = true /\
  contains ("Service Focus: " +:+ str_upper "s3" +:+ nl +:+ nl)
    (_generate_search_results "bucket policy" (Some "s3")) = true /\
  contains ("• Check AWS Documentation for " +:+ "s3" +:+ nl)
    (_generate_search_results "bucket policy" (Some "s3")) = true.
Proof.
  apply (generate_search_results_echo (H := ascii_case) "bucket policy" "s3").
  reflexivity.
Defined.

Lemma run_falls_back_to_guidance_witness :
  _run _search_aws_docs
       (_web_search_aws (fun _ _ => raise (Exception "connection refused")))
       (fun q s => ret (_generate_aws_guidance q s)) "lambda timeout" None []
    = (Ok (_generate_aws_guidance "lambda timeout" None),
       [] ++ [Log WARNING ("Web search failed: " +:+
                           str_exn (Exception "connection refused"))]).
Proof.
  apply (run_falls_back_to_guidance (H := ascii_case)
           (fun _ _ => raise (Exception "connection refused"))
           "lambda timeout" None [] (Exception "connection refused") []).
  reflexivity.
Defined.

(** X12.  [_run] returns the first usable result: a non-empty text from
    [_search_aws_docs] is the answer, and neither the web search nor the
    guidance is run. *)
Theorem run_prefers_docs docs web guidance query service w text w1 :
  docs query service w = (Ok (Some text), w1) ->
  truthy text = true ->
  _run docs web guidance query service w = (Ok text, w1).
Proof.
  intros Hdocs Ht.
  unfold _run, run_body, try_except, mbind, M_bind, bind.
  rewrite Hdocs. simpl. by rewrite Ht.
Qed.

Lemma run_prefers_docs_witness :
  _run (fun _ _ => ret (Some "S3 buckets are private by default."))
       (fun _ _ => raise (Exception "not reached"))
       (fun _ _ => raise (Exception "not reached"))
       "s3 access" None []
    = (Ok "S3 buckets are private by default.", []).
Proof.
  apply (run_prefers_docs
           (fun _ _ => ret (Some "S3 buckets are private by default."))
           (fun _ _ => raise (Exception "not reached"))
           (fun _ _ => raise (Exception "not reached"))
           "s3 access" None [] "S3 buckets are private by default." []);
    reflexivity.
Defined.

(** X13.  When [_search_aws_docs] has nothing (no text, or an empty one), a
    non-empty text from [_web_search_aws] is the answer, and the guidance
    is not run. *)
Theorem run_prefers_web docs web guidance query service w d w1 text w2 :
  docs query service w = (Ok d, w1) ->
  truthy_opt d = false ->
  web query service w1 = (Ok (Some text), w2) ->
  truthy text = true ->
  _run docs web guidance query service w = (Ok text, w2).
Proof.
  intros Hdocs Hd Hweb Ht.
  unfold _run, run_body, try_except, mbind, M_bind, bind.
  rewrite Hdocs. unfold return_if_truthy.
  destruct d as [t|]; simpl in Hd; rewrite ?Hd, Hweb, Ht; done.
Qed.

Lemma run_prefers_web_witness :
  _run (fun _ _ => ret (Some ""))
       (fun _ _ => ret (Some "See the VPC peering guide."))
       (fun _ _ => raise (Exception "not reached"))
       "vpc peering" None []
    = (Ok "See the VPC peering guide.", []).
Proof.
  apply (run_prefers_web
           (fun _ _ => ret (Some ""))
           (fun _ _ => ret (Some "See the VPC peering guide."))
           (fun _ _ => raise (Exception "not reached"))
           "vpc peering" None [] (Some "") [] "See the VPC peering guide." []);
    reflexivity.
Defined.

End AwsToolFacts.

(** ** The helpers of the chat page *)

Module UiFacts.
Import AwsTool StringFacts Ui.

(** *** The API keys *)

(** [set_api_keys] in closed form: it never raises (the two lookups in
    [defaults] find their keys), and it changes the environment only. *)
Lemma set_api_keys_eq st :
  set_api_keys st
    = (Ok (report_gemini st (report_serper st ∅)),
       {| environ := export_gemini st (export_serper st (environ st));
          session_state := session_state st;
          notes_history := notes_history st;
          now := now st |}).
Proof.
  unfold set_api_keys, load_default_api_keys, getenv, session_get, setenv,
    or_else, dict_get.
  unfold report_gemini, report_serper, export_gemini, export_serper, chosen.
  unfold_monad. simpl.
  rewrite lookup_insert_eq.
  rewrite lookup_insert_ne, lookup_insert_eq by done.
  destruct st as [env ss notes clock]; simpl.
  destruct (truthy (default "" (ss !! "serper_api_key"))) eqn:Hs; simpl;
    destruct (truthy (default "" (ss !! "gemini_api_key"))) eqn:Hg; simpl;
    rewrite ?Hs, ?Hg; simpl;
    repeat (match goal with
            | |- context [truthy (default "" (env !! ?k))] =>
                destruct (truthy (default "" (env !! k))) eqn:?; simpl
            end); reflexivity.
Qed.

Lemma export_serper_lookup st env :
  export_serper st env !! "SERPER_API_KEY"
    = if truthy (chosen "serper_api_key" "SERPER_API_KEY" st)
      then Some (chosen "serper_api_key" "SERPER_API_KEY" st)
      else env !! "SERPER_API_KEY".
Proof.
  unfold export_serper. destruct (truthy _); [|done].
  by rewrite lookup_insert_eq.
Qed.

Lemma export_serper_lookup_ne st env key :
  key <> "SERPER_API_KEY" -> export_serper st env !! key = env !! key.
Proof.
  intros Hne. unfold export_serper. destruct (truthy _); [|done].
  by rewrite lookup_insert_ne.
Qed.

Lemma export_gemini_lookup st env :
  export_gemini st env !! "GEMINI_API_KEY"
    = if truthy (chosen "gemini_api_key" "GEMINI_API_KEY" st)
      then Some (chosen "gemini_api_key" "GEMINI_API_KEY" st)
      else env !! "GEMINI_API_KEY".
Proof.
  unfold export_gemini. destruct (truthy _); [|done].
  by rewrite lookup_insert_ne, lookup_insert_eq.
Qed.

Lemma export_gemini_lookup_google st env :
  export_gemini st env !! "GOOGLE_API_KEY"
    = if truthy (chosen "gemini_api_key" "GEMINI_API_KEY" st)
      then Some (chosen "gemini_api_key" "GEMINI_API_KEY" st)
      else env !! "GOOGLE_API_KEY".
Proof.
  unfold export_gemini. destruct (truthy _); [|done].
  by rewrite lookup_insert_eq.
Qed.

Lemma export_gemini_lookup_ne st env key :
  key <> "GEMINI_API_KEY" -> key <> "GOOGLE_API_KEY" ->
  export_gemini st env !! key = env !! key.
Proof.
  intros Hne1 Hne2. unfold export_gemini. destruct (truthy _); [|done].
  by rewrite !lookup_insert_ne.
Qed.

Lemma truthy_default_some (o : option string) :
  truthy (default "" o) = true -> o = Some (default "" o).
Proof. by destruct o. Qed.




(** What is chosen does not change when the chosen keys are exported. *)
Lemma chosen_after_export st st' :
  session_state st' = session_state st ->
  environ st' = export_gemini st (export_serper st (environ st)) ->
  chosen "serper_api_key" "SERPER_API_KEY" st'
    = chosen "serper_api_key" "SERPER_API_KEY" st /\
  chosen "gemini_api_key" "GEMINI_API_KEY" st'
    = chosen "gemini_api_key" "GEMINI_API_KEY" st.
Proof.
  intros Hss Henv. unfold chosen at 1 3. rewrite Hss, Henv.
  rewrite export_gemini_lookup.
  rewrite (export_gemini_lookup_ne _ _ "SERPER_API_KEY") by done.
  rewrite export_serper_lookup, export_serper_lookup_ne by done.
  split.
  - unfold chosen.
    destruct (truthy (default "" (session_state st !! "serper_api_key")));
      [done|].
    by destruct (truthy (default "" (environ st !! "SERPER_API_KEY"))).
  - unfold chosen.
    destruct (truthy (default "" (session_state st !! "gemini_api_key")));
      [done|].
    by destruct (truthy (default "" (environ st !! "GEMINI_API_KEY"))).
Qed.

(** X16.  [set_api_keys] is idempotent: run again on the state it left, it
    reports the same services and changes nothing. *)
Theorem set_api_keys_idempotent st keys st' :
  set_api_keys st = (Ok keys, st') ->
  set_api_keys st' = (Ok keys, st').
Proof.
  rewrite set_api_keys_eq. intros [= <- <-]. rewrite set_api_keys_eq.
  set (st' := {| environ := _; session_state := _; notes_history := _; now := _ |}).
  destruct (chosen_after_export st st' eq_refl eq_refl) as [Hs Hg].
  unfold report_gemini, report_serper, export_gemini, export_serper.
  rewrite Hs, Hg. f_equal. unfold st' at 2. f_equal.
  change (environ st')
    with (export_gemini st (export_serper st (environ st))).
  destruct (truthy (chosen "serper_api_key" "SERPER_API_KEY" st)) eqn:Hts;
    destruct (truthy (chosen "gemini_api_key" "GEMINI_API_KEY" st)) eqn:Htg;
    cbn [environ].
  - rewrite (insert_id _ "SERPER_API_KEY").
    2: { rewrite export_gemini_lookup_ne, export_serper_lookup by done.
         by rewrite Hts. }
    rewrite (insert_id _ "GEMINI_API_KEY")
      by (by rewrite export_gemini_lookup, Htg).
    by rewrite insert_id by (by rewrite export_gemini_lookup_google, Htg).
  - rewrite (insert_id _ "SERPER_API_KEY"); [done|].
    rewrite export_gemini_lookup_ne, export_serper_lookup by done.
    by rewrite Hts.
  - rewrite (insert_id _ "GEMINI_API_KEY")
      by (by rewrite export_gemini_lookup, Htg).
    by rewrite insert_id by (by rewrite export_gemini_lookup_google, Htg).
  - done.
Qed.

Lemma set_api_keys_idempotent_witness :
  set_api_keys
    {| environ := <["GOOGLE_API_KEY" := "typed"]>
                    (<["GEMINI_API_KEY" := "typed"]> ∅);
       session_state := <["gemini_api_key" := "typed"]> ∅;
       notes_history := None; now := "12:00:00" |}
    = (Ok (<["Gemini" := true]> ∅),
       {| environ := <["GOOGLE_API_KEY" := "typed"]>
                       (<["GEMINI_API_KEY" := "typed"]> ∅);
          session_state := <["gemini_api_key" := "typed"]> ∅;
          notes_history := None; now := "12:00:00" |}).
Proof.
  apply (set_api_keys_idempotent
           {| environ := ∅;
              session_state := <["gemini_api_key" := "typed"]> ∅;
              notes_history := None; now := "12:00:00" |}).
  reflexivity.
Defined.



(** *** Lines *)

Lemma split_lines_nonempty s : split_lines s <> [].
Proof.
  destruct s as [|c s]; simpl; [done|].
  destruct (Ascii.eqb c "010"); [done|].
  by destruct (split_lines s).
Qed.

(** Splitting at the newlines and joining with newlines gives the text back. *)
Lemma join_split_lines s : join_lines (split_lines s) = s.
Proof.
  induction s as [|c s IH]; simpl; [done|].
  destruct (Ascii.eqb_spec c "010") as [->|Hc].
  - pose proof (split_lines_nonempty s) as Hne.
    destruct (split_lines s) as [|l ls]; [done|].
    change (join_lines ("" :: l :: ls)) with ("" +:+ nl +:+ join_lines (l :: ls)).
    by rewrite IH.
  - pose proof (split_lines_nonempty s) as Hne.
    destruct (split_lines s) as [|l ls]; [done|].
    destruct ls as [|l' ls]; simpl in *; by rewrite <- IH.
Qed.

Lemma starts_with_cons a p b s :
  starts_with (String a p) (String b s) = Ascii.eqb a b && starts_with p s.
Proof. reflexivity. Qed.

Lemma contains_cons n c s :
  contains n (String c s) = starts_with n (String c s) || contains n s.
Proof. reflexivity. Qed.

Lemma contains_hash c s :
  contains "#" (String c s) = Ascii.eqb "#" c || contains "#" s.
Proof. by rewrite contains_cons, starts_with_cons, andb_true_r. Qed.

Lemma no_hash_no_double_hash s :
  contains "#" s = false -> contains "##" s = false.
Proof.
  induction s as [|c s IH]; [done|].
  rewrite contains_hash. intros [Hc Hs]%orb_false_iff.
  rewrite contains_cons, starts_with_cons, Hc, (IH Hs). done.
Qed.

Lemma no_hash_no_heading s :
  contains "#" s = false ->
  starts_with "##" s || starts_with "#" s = false.
Proof.
  destruct s as [|c s]; [done|].
  rewrite contains_hash. intros [Hc _]%orb_false_iff.
  by rewrite !starts_with_cons, Hc.
Qed.

Lemma split_lines_no_hash s :
  contains "#" s = false ->
  Forall (fun l => contains "#" l = false) (split_lines s).
Proof.
  induction s as [|c s IH]; [by repeat constructor|].
  rewrite contains_hash. intros [Hc Hs]%orb_false_iff.
  specialize (IH Hs). simpl.
  destruct (Ascii.eqb c "010"); [by constructor|].
  destruct (split_lines s) as [|l ls]; inversion IH; subst.
  - repeat constructor. rewrite contains_hash, Hc. done.
  - constructor; [|done]. rewrite contains_hash, Hc. done.
Qed.

Section TextFacts.
Context `{StrCase} `{StrOps}.

Lemma filter_lines_cons line rest skip filtered :
  filter_lines (line :: rest) skip filtered
    = if contains "summary" (str_lower line)
         && (contains "##" line || contains "#" line)
      then filter_lines rest true filtered
      else
        if negb (if starts_with "##" line || starts_with "#" line
                 then false else skip)
        then filter_lines rest
               (if starts_with "##" line || starts_with "#" line
                then false else skip) (filtered ++ [line])
        else filter_lines rest
               (if starts_with "##" line || starts_with "#" line
                then false else skip) filtered.
Proof. reflexivity. Qed.

Lemma first_note_cons line rest :
  first_note (line :: rest)
    = if truthy (str_strip line) && negb (starts_with "#" (str_strip line))
         && (20 <? str_len (str_strip line))%nat
      then (if (100 <? str_len (str_strip line))%nat
            then str_take 100 (str_strip line) +:+ "..."
            else str_strip line)
      else first_note rest.
Proof. reflexivity. Qed.

Lemma filter_lines_no_hash lines filtered :
  Forall (fun l => contains "#" l = false) lines ->
  filter_lines lines false filtered = filtered ++ lines.
Proof.
  intros Hl. revert filtered.
  induction Hl as [|line lines Hline _ IH]; intros filtered.
  - simpl. by rewrite List.app_nil_r.
  - rewrite filter_lines_cons.
    rewrite Hline, (no_hash_no_double_hash _ Hline), andb_false_r.
    rewrite (no_hash_no_heading _ Hline).
    simpl. by rewrite IH, <- List.app_assoc.
Qed.

(** X18.  A text without ["#"] loses nothing but outer white space: the
    loop keeps every line, and the result is the text stripped (twice, as
    the code strips before splitting and after joining). *)
Theorem parse_text_output_plain response_text :
  contains "#" (str_strip response_text) = false ->
  parse_text_output response_text = str_strip (str_strip response_text).
Proof.
  intros Hno. unfold parse_text_output.
  rewrite filter_lines_no_hash by (by apply split_lines_no_hash).
  by rewrite List.app_nil_l, join_split_lines.
Qed.

(** What the loop keeps: lines of its input, in their order, none of them
    one that mentions "summary" and contains ["#"]. *)
Lemma filter_lines_kept lines skip filtered :
  exists kept,
    filter_lines lines skip filtered = filtered ++ kept /\
    kept `sublist_of` lines /\
    Forall (fun line =>
              contains "summary" (str_lower line)
              && (contains "##" line || contains "#" line) = false) kept.
Proof.
  revert skip filtered. induction lines as [|line lines IH];
    intros skip filtered.
  - exists []. simpl. by rewrite List.app_nil_r.
  - rewrite filter_lines_cons.
    destruct (contains "summary" (str_lower line)
              && (contains "##" line || contains "#" line)) eqn:Hsum.
    + destruct (IH true filtered) as (kept & -> & Hsub & Hall).
      exists kept. split; [done|]. split; [by apply sublist_cons|done].
    + set (skip' := if starts_with "##" line || starts_with "#" line
                    then false else skip).
      destruct (negb skip').
      * destruct (IH skip' (filtered ++ [line])) as (kept & -> & Hsub & Hall).
        exists (line :: kept). rewrite <- List.app_assoc. split; [done|].
        split; [by apply sublist_skip | by constructor].
      * destruct (IH skip' filtered) as (kept & -> & Hsub & Hall).
        exists kept. split; [done|]. split; [by apply sublist_cons|done].
Qed.

(** X19.  [parse_text_output] only removes lines: its result is the
    stripped join of lines of the stripped input, in their order, and no
    line that mentions "summary" (in any case) and contains ["#"] is among
    them. *)
Theorem parse_text_output_kept response_text :
  exists kept,
    parse_text_output response_text = str_strip (join_lines kept) /\
    kept `sublist_of` split_lines (str_strip response_text) /\
    Forall (fun line =>
              contains "summary" (str_lower line)
              && (contains "##" line || contains "#" line) = false) kept.
Proof.
  unfold parse_text_output.
  destruct (filter_lines_kept (split_lines (str_strip response_text)) false [])
    as (kept & -> & Hsub & Hall).
  by exists kept.
Qed.

(** X20.  A summary section is dropped whole: after a line that mentions
    "summary" and contains ["#"], the lines up to the next one that starts
    with ["#"] are skipped, whether or not the loop was skipping before. *)
Theorem filter_lines_drops_summary_section heading body rest skip filtered :
  contains "summary" (str_lower heading)
  && (contains "##" heading || contains "#" heading) = true ->
  Forall (fun line => starts_with "#" line = false) body ->
  filter_lines (heading :: body ++ rest) skip filtered
    = filter_lines rest true filtered.
Proof.
  intros Hh Hbody. rewrite filter_lines_cons, Hh. clear Hh.
  induction Hbody as [|line body Hline _ IH]; [done|].
  change ((line :: body) ++ rest) with (line :: body ++ rest).
  rewrite filter_lines_cons.
  destruct (contains "summary" (str_lower line)
            && (contains "##" line || contains "#" line)); [done|].
  assert (Hd : starts_with "##" line = false).
  { destruct line as [|c l]; [done|].
    rewrite starts_with_cons in *. rewrite andb_true_r in Hline.
    by rewrite Hline. }
  by rewrite Hd, Hline.
Qed.

(** *** Notes *)

Lemma truthy_app_r (a b : string) : truthy b = true -> truthy (a +:+ b) = true.
Proof. destruct a; [done|]. by destruct b. Qed.

Lemma first_note_truthy_or_empty lines :
  first_note lines = "" \/ truthy (first_note lines) = true.
Proof.
  induction lines as [|line lines IH]; [by left|].
  rewrite first_note_cons.
  destruct (truthy (str_strip line)) eqn:Ht,
    (starts_with "#" (str_strip line)),
    (20 <? str_len (str_strip line))%nat; cbn [andb negb]; try done.
  right. destruct (100 <? str_len (str_strip line))%nat; [|done].
  by apply truthy_app_r.
Qed.

(** X21.  [add_note_to_history] appends exactly one entry to the history
    (starting it when there is none) and leaves the earlier entries alone;
    the entry carries the clock reading and a note that is never empty.
    It then goes on as [set_api_keys] does, from the state with the new
    entry, and returns what that returns. *)
Theorem add_note_to_history_appends content user_input st :
  exists entry note st1,
    append_note content user_input st = (Ok tt, st1) /\
    notes_history st1 = Some (default [] (notes_history st) ++ [entry]) /\
    environ st1 = environ st /\
    entry !! "timestamp" = Some (now st) /\
    entry !! "note" = Some note /\ truthy note = true /\
    add_note_to_history content user_input st = set_api_keys st1.
Proof.
  unfold add_note_to_history, append_note. unfold_monad.
  do 3 eexists. split; [reflexivity|]. simpl.
  split; [reflexivity|]. split; [reflexivity|].
  split; [by simplify_map_eq|].
  split; [by simplify_map_eq|].
  split; [|reflexivity].
  destruct (first_note_truthy_or_empty (split_lines content)) as [Hn|Hn];
    rewrite Hn; cbn [negb truthy]; [|exact Hn].
  by apply truthy_app_l.
Qed.

(** X22.  The note is the first substantial line: lines that, stripped,
    are empty, start with ["#"] or have at most 20 characters are passed
    over, the first other line is taken, stripped, and cut to 100
    characters plus ["..."] when it is longer; later lines do not matter. *)
Theorem first_note_first_substantial before line after :
  forallb (fun l => negb (substantial (str_strip l))) before = true ->
  substantial (str_strip line) = true ->
  first_note (before ++ line :: after)
    = if (100 <? str_len (str_strip line))%nat
      then str_take 100 (str_strip line) +:+ "..."
      else str_strip line.
Proof.
  intros Hb Hl. induction before as [|l before IH].
  - change ([] ++ line :: after) with (line :: after).
    rewrite first_note_cons. unfold substantial in Hl. by rewrite Hl.
  - change ((l :: before) ++ line :: after) with (l :: before ++ line :: after).
    rewrite first_note_cons.
    simpl in Hb. apply andb_true_iff in Hb as [Hn Hb].
    apply negb_true_iff in Hn. unfold substantial in Hn. rewrite Hn.
    by apply IH.
Qed.
End TextFacts.

Lemma parse_text_output_plain_witness :
  parse_text_output "  Use bucket policies.  "
    = str_strip (str_strip "  Use bucket policies.  ").
Proof.
  apply (parse_text_output_plain (H := ascii_case) (H0 := ascii_ops)
           "  Use bucket policies.  ").
  reflexivity.
Defined.

Lemma filter_lines_drops_summary_section_witness :
  filter_lines
    ("## Summary" :: ["S3 is storage."; "Use it."] ++ ["## Details"; "Buckets."])
    false ["# Answer"]
    = filter_lines ["## Details"; "Buckets."] true ["# Answer"].
Proof.
  apply (filter_lines_drops_summary_section (H := ascii_case)
           "## Summary" ["S3 is storage."; "Use it."]
           ["## Details"; "Buckets."] false ["# Answer"]).
  - reflexivity.
  - repeat constructor.
Defined.

Lemma first_note_first_substantial_witness :
  first_note (["# Answer"; ""; "Short."]
              ++ "  Enable default encryption on the bucket.  " :: ["More text follows here, but it is not used."])
    = if (100 <? str_len (str_strip "  Enable default encryption on the bucket.  "))%nat
      then str_take 100 (str_strip "  Enable default encryption on the bucket.  ") +:+ "..."
      else str_strip "  Enable default encryption on the bucket.  ".
Proof.
  apply (first_note_first_substantial (H0 := ascii_ops)
           ["# Answer"; ""; "Short."]
           "  Enable default encryption on the bucket.  "
           ["More text follows here, but it is not used."]);
    reflexivity.
Defined.

End UiFacts.

(** ** The other callers of the crew *)

Module CallersFacts.
Import Api Callers.

Section Facts.
Variable fw : Framework.
Variable is_AttributeError : exn -> bool.
Variable crew_callable : AWSCrew -> bool.
Variables no_crew_attribute no_kickoff_attribute : exn.
Variable format_exc : exn -> string.

Local Abbreviation standard :=
  (standard_approach crew_callable no_crew_attribute no_kickoff_attribute).
Local Abbreviation manual := (manual_crew_kickoff fw).
Local Abbreviation ui_run :=
  (run_aws_crew fw is_AttributeError crew_callable no_crew_attribute
     no_kickoff_attribute format_exc).
Local Abbreviation cli_main :=
  (main fw is_AttributeError crew_callable no_crew_attribute
     no_kickoff_attribute).

Ltac run_callers :=
  unfold run_aws_crew, main, standard_approach, access_crew,
    attribute_kickoff, call_then_kickoff, manual_crew_kickoff,
    try_except_if, note in *;
  unfold_monad; simpl.

Ltac each_call :=
  repeat (match goal with
          | |- context [match ?o with Ok _ => _ | Raise _ => _ end] =>
              destruct o eqn:?; simpl
          end).

(** The standard approach takes no step of the manual crew. *)
Lemma standard_approach_steps h inputs t :
  exists steps,
    snd (standard h inputs t) = t ++ steps /\
    existsb is_manual_step steps = false.
Proof.
  run_callers.
  destruct (has_crew h); [destruct (crew_callable h)|]; simpl.
  - each_call; repeat rewrite <- app_assoc; simpl;
      eexists; (split; [reflexivity | reflexivity]).
  - destruct (crew h) as [c|e]; simpl.
    + exists [Call (EvKickoff Primary inputs)].
      by destruct (kickoff c inputs).
    + exists []. by rewrite app_nil_r.
  - exists []. by rewrite app_nil_r.
Qed.

(** The manual crew takes no kickoff of the primary kind. *)
Lemma manual_crew_kickoff_steps h inputs t :
  exists steps,
    snd (manual h inputs t) = t ++ steps /\
    existsb is_primary_kickoff steps = false.
Proof.
  run_callers.
  each_call; repeat rewrite <- app_assoc; simpl;
    eexists; (split; [reflexivity | reflexivity]).
Qed.

(** X23.  The chat page does fall back: when the standard approach raises
    an [AttributeError], [run_aws_crew] warns, runs the crew assembled by
    hand, and answers with that crew's text, or with the failure text of
    whatever that crew raises. *)
Theorem run_aws_crew_falls_back user_input t h e t1 :
  new_AWSCrew fw = Ok h ->
  standard h (<["topic" := user_input]> (<["query" := user_input]> ∅))
      (t ++ [Call EvNewAWSCrew]) = (Raise e, t1) ->
  is_AttributeError e = true ->
  ui_run user_input t
    = match manual h (<["topic" := user_input]> (<["query" := user_input]> ∅))
              (t1 ++ [Warning ("Standard approach failed: " +:+ str_exn e +:+
                               ". Trying manual crew creation...")]) with
      | (Ok out, t2) => (Ok (str_output out), t2)
      | (Raise e', t2) => (Ok (failure_text format_exc e'), t2)
      end.
Proof.
  intros Hnew Hstd Hclass.
  unfold run_aws_crew, try_except, try_except_if, note.
  unfold_monad. simpl. rewrite Hnew. simpl. rewrite Hstd, Hclass.
  by destruct (manual h _ _) as [[out|e'] t2].
Qed.

(** X24.  An exception of any other class ends the call at once:
    [run_aws_crew] returns the failure text, "Error running AWS Crew: "
    with the message and the traceback, and no step of the manual crew has
    been taken.  The caller gets a text either way, never an exception. *)
Theorem run_aws_crew_reports_other_errors user_input t h e t1 :
  new_AWSCrew fw = Ok h ->
  standard h (<["topic" := user_input]> (<["query" := user_input]> ∅))
      (t ++ [Call EvNewAWSCrew]) = (Raise e, t1) ->
  is_AttributeError e = false ->
  ui_run user_input t
    = (Ok ("Error running AWS Crew: " +:+ str_exn e +:+ nl +:+ nl +:+
           "Traceback:" +:+ nl +:+ format_exc e), t1) /\
  exists steps,
    t1 = t ++ steps /\ existsb is_manual_step steps = false.
Proof.
  intros Hnew Hstd Hclass. split.
  - unfold run_aws_crew, try_except, try_except_if, note.
    unfold_monad. simpl. rewrite Hnew. simpl. by rewrite Hstd, Hclass.
  - destruct (standard_approach_steps h
                (<["topic" := user_input]> (<["query" := user_input]> ∅))
                (t ++ [Call EvNewAWSCrew])) as (steps & Hs & Hm).
    rewrite Hstd in Hs. simpl in Hs.
    exists (Call EvNewAWSCrew :: steps).
    split; [by rewrite Hs, <- app_assoc | done].
Qed.

(** X25.  The command line never runs the crew that [crew()] builds: with
    [crew] a method, as [AWSCrew] defines it, the access
    [crew_instance.crew.kickoff] fails with an [AttributeError], so [main]
    prints the two notices and runs the crew assembled by hand.  It prints
    that crew's answer, or lets that crew's exception escape; no kickoff of
    the primary kind is among its steps. *)
Theorem main_runs_manual_crew user_input t h :
  new_AWSCrew fw = Ok h ->
  has_crew h = true ->
  crew_callable h = true ->
  is_AttributeError no_kickoff_attribute = true ->
  cli_main user_input t
    = match manual h (<["topic" := user_input]> ∅)
              (t ++ [Input "Welcome to the AWS Crew! Please ask your doubt or question: ";
                     Call EvNewAWSCrew;
                     Printed ("Error accessing crew: " +:+ str_exn no_kickoff_attribute);
                     Printed "Trying alternative approach..."]) with
      | (Ok out, t2) =>
          (Ok tt, t2 ++ [Printed (str_mul "=" 50); Printed "AWS Crew Response:";
                         Printed (str_mul "=" 50); Printed (str_output out)])
      | (Raise e, t2) => (Raise e, t2)
      end /\
  exists steps,
    snd (cli_main user_input t) = t ++ steps /\
    existsb is_primary_kickoff steps = false.
Proof.
  intros Hnew Hprobe Hcall Hclass.
  assert (Hmain : cli_main user_input t
    = match manual h (<["topic" := user_input]> ∅)
              (t ++ [Input "Welcome to the AWS Crew! Please ask your doubt or question: ";
                     Call EvNewAWSCrew;
                     Printed ("Error accessing crew: " +:+ str_exn no_kickoff_attribute);
                     Printed "Trying alternative approach..."]) with
      | (Ok out, t2) =>
          (Ok tt, t2 ++ [Printed (str_mul "=" 50); Printed "AWS Crew Response:";
                         Printed (str_mul "=" 50); Printed (str_output out)])
      | (Raise e, t2) => (Raise e, t2)
      end).
  { unfold main, access_crew, attribute_kickoff, try_except_if, note.
    unfold_monad. simpl. rewrite Hnew. simpl.
    rewrite Hprobe, Hcall. unfold raise. rewrite Hclass.
    repeat rewrite <- app_assoc. simpl.
    destruct (manual h _ _) as [[out|e] t2]; [|done].
    by repeat rewrite <- app_assoc. }
  split; [exact Hmain|]. rewrite Hmain.
  destruct (manual_crew_kickoff_steps h (<["topic" := user_input]> ∅)
              (t ++ [Input "Welcome to the AWS Crew! Please ask your doubt or question: ";
                     Call EvNewAWSCrew;
                     Printed ("Error accessing crew: " +:+ str_exn no_kickoff_attribute);
                     Printed "Trying alternative approach..."]))
    as (steps & Hs & Hk).
  destruct (manual h _ _) as [[out|e] t2]; simpl in *; subst t2;
    repeat rewrite <- app_assoc; simpl; eexists; (split; [reflexivity|]);
    cbn [existsb is_primary_kickoff orb]; rewrite ?existsb_app, Hk; done.
Qed.
End Facts.

Lemma run_aws_crew_falls_back_witness :
  run_aws_crew (framework (handle false failing_crew) answering_crew)
      has_no_attribute (fun _ => true) missing_crew missing_kickoff
      (fun _ => "Traceback (most recent call last): ...") "What is a VPC?" []
    = match manual_crew_kickoff
              (framework (handle false failing_crew) answering_crew)
              (handle false failing_crew)
              (<["topic" := "What is a VPC?"]> (<["query" := "What is a VPC?"]> ∅))
              ([Call EvNewAWSCrew]
               ++ [Warning ("Standard approach failed: " +:+ str_exn missing_crew +:+
                            ". Trying manual crew creation...")]) with
      | (Ok out, t2) => (Ok (str_output out), t2)
      | (Raise e', t2) =>
          (Ok (failure_text (fun _ => "Traceback (most recent call last): ...") e'), t2)
      end.
Proof.
  apply (run_aws_crew_falls_back
           (framework (handle false failing_crew) answering_crew)
           has_no_attribute (fun _ => true) missing_crew missing_kickoff
           (fun _ => "Traceback (most recent call last): ...")
           "What is a VPC?" [] (handle false failing_crew) missing_crew
           [Call EvNewAWSCrew]); reflexivity.
Defined.

Lemma run_aws_crew_reports_other_errors_witness :
  run_aws_crew (framework (handle true failing_crew) answering_crew)
      has_no_attribute (fun _ => true) missing_crew missing_kickoff
      (fun _ => "Traceback (most recent call last): ...") "What is a VPC?" []
    = (Ok ("Error running AWS Crew: " +:+ str_exn (Exception "boom") +:+ nl +:+ nl +:+
           "Traceback:" +:+ nl +:+ "Traceback (most recent call last): ..."),
       [Call EvNewAWSCrew; Call EvCrew;
        Call (EvKickoff Primary
                (<["topic" := "What is a VPC?"]>
                   (<["query" := "What is a VPC?"]> ∅)))]) /\
  exists steps,
    [Call EvNewAWSCrew; Call EvCrew;
     Call (EvKickoff Primary
             (<["topic" := "What is a VPC?"]>
                (<["query" := "What is a VPC?"]> ∅)))] = [] ++ steps /\
    existsb is_manual_step steps = false.
Proof.
  apply (run_aws_crew_reports_other_errors
           (framework (handle true failing_crew) answering_crew)
           has_no_attribute (fun _ => true) missing_crew missing_kickoff
           (fun _ => "Traceback (most recent call last): ...")
           "What is a VPC?" [] (handle true failing_crew) (Exception "boom"));
    reflexivity.
Defined.

Lemma main_runs_manual_crew_witness :
  main (framework (handle true answering_crew) answering_crew)
      has_no_attribute (fun _ => true) missing_crew missing_kickoff
      "What is a VPC?" []
    = match manual_crew_kickoff
              (framework (handle true answering_crew) answering_crew)
              (handle true answering_crew)
              (<["topic" := "What is a VPC?"]> ∅)
              ([] ++ [Input "Welcome to the AWS Crew! Please ask your doubt or question: ";
                      Call EvNewAWSCrew;
                      Printed ("Error accessing crew: " +:+ str_exn missing_kickoff);
                      Printed "Trying alternative approach..."]) with
      | (Ok out, t2) =>
          (Ok tt, t2 ++ [Printed (str_mul "=" 50); Printed "AWS Crew Response:";
                         Printed (str_mul "=" 50); Printed (str_output out)])
      | (Raise e, t2) => (Raise e, t2)
      end /\
  exists steps,
    snd (main (framework (handle true answering_crew) answering_crew)
           has_no_attribute (fun _ => true) missing_crew missing_kickoff
           "What is a VPC?" []) = [] ++ steps /\
    existsb is_primary_kickoff steps = false.
Proof.
  apply (main_runs_manual_crew
           (framework (handle true answering_crew) answering_crew)
           has_no_attribute (fun _ => true) missing_crew missing_kickoff
           "What is a VPC?" [] (handle true answering_crew)); reflexivity.
Defined.

End CallersFacts.
